(** * Creality K1 integration: connection supervisor, message codec and glue

    Shallow embedding of [custom_component/creality_k1/websocket.py],
    [coordinator.py], [const.py], [__init__.py] and the entity platforms
    ([sensor.py], [switch.py], [climate.py], [button.py], [fan.py]).

    Python values are modelled by [pyval], Python dicts with string keys by
    [gmap string pyval], raised exceptions by the [result] type.  Strings
    are [String.string], one character per code point U+0000..U+00FF. *)

From stdpp Require Import base gmap strings list.
From Stdlib Require Import ZArith.
From Stdlib Require SpecFloat.

(** ** Python values, exceptions and log levels *)
Module Py.

#[local] Set Warnings "-register-all".

Inductive pyval : Type :=
| PNone
| PBool (b : bool)
| PInt (z : Z)
| PFloat (mant exp10 : Z)
| PStr (s : string)
| PList (xs : list pyval)
| PDict (kvs : list (string * pyval)).

(** The exception classes raised by the modelled code; all are subclasses
    of [Exception] (none is a bare [BaseException]). *)
Inductive exn : Type :=
| JSONDecodeError
| RecursionError
| AttributeError (name : string)
| TypeError
| ConnectionError
| ConnectionClosed
| TimeoutError
| WebSocketException
| OSError
| UpdateFailed
| ImportError (name : string)
| OtherError.

Inductive result (A : Type) : Type :=
| Ok (a : A)
| Raise (e : exn).
Arguments Ok {A} a.
Arguments Raise {A} e.

Inductive level : Type := Debug | Info | Warning | Error.

(** A dict decoded from JSON: object members inserted in order, so a
    repeated key keeps its last value (as [json.loads] does). *)
Definition dict_of (kvs : list (string * pyval)) : gmap string pyval :=
  fold_left (fun m kv => <[kv.1 := kv.2]> m) kvs ∅.

(** [d.update(other)]: every key of [other] overwrites, others stay. *)
Definition dict_update (d other : gmap string pyval) : gmap string pyval :=
  other ∪ d.

(** [v.get(k)]: only dicts have [get]; [None] when the key is missing. *)
Definition py_get (v : pyval) (k : string) : result pyval :=
  match v with
  | PDict kvs => Ok (default PNone (dict_of kvs !! k))
  | _ => Raise (AttributeError "get")
  end.

(** [v == s] for a Python string literal [s]. *)
Definition py_eq_str (v : pyval) (s : string) : bool :=
  match v with
  | PStr t => String.eqb t s
  | _ => false
  end.

End Py.
Import Py.

(** ** const.py *)
Module Const.

Definition DOMAIN : string := "creality_k1".
Definition MSG_TYPE_HEARTBEAT : string := "heart_beat".
Definition HEARTBEAT_INTERVAL : nat := 5.
Definition HEARTBEAT_TIMEOUT : nat := 1.
Definition WS_OPERATION_TIMEOUT : nat := 10.
Definition HASS_UPDATE_INTERVAL : nat := 30.

(** The module-level names bound by [const.py] (the WebSocket related ones
    and the others that [websocket.py] could import). *)
Definition const_names : list string :=
  ["DOMAIN"; "PLATFORMS"; "MSG_TYPE_HEARTBEAT"; "HEARTBEAT_INTERVAL";
   "HEARTBEAT_TIMEOUT"; "WS_OPERATION_TIMEOUT"; "HASS_UPDATE_INTERVAL";
   "SENSOR_NAME_BED_TEMP"; "SENSOR_NAME_BOX_TEMP"; "SENSOR_NAME_NOZZLE_TEMP";
   "SENSOR_NAME_PRINT_PROGRESS"; "SENSOR_NAME_TOTAL_LAYER";
   "SENSOR_NAME_WORKING_LAYER"; "SENSOR_NAME_USED_MATERIAL";
   "SENSOR_NAME_TOTAL_PRINT_TIME"; "SENSOR_NAME_PRINT_JOB_LEFT";
   "SENSOR_NAME_PRINT_STATE"; "SWITCH_NAME_LIGHT"; "FAN_NAME_MODEL_FAN";
   "FAN_NAME_CASE_FAN"; "FAN_NAME_AUXILIARY_FAN"; "FAN_CONFIG";
   "BUTTON_CONTROLS"; "CLIMATE_CONTROLS"; "DEVICE_NAME";
   "DEVICE_MANUFACTURER"; "DEVICE_MODEL"; "PRINTER_STATE_MAP";
   "DEFAULT_PRINTER_STATE"].

(** [from .const import a, b, ...]: names are bound left to right; the
    first name the module does not define raises [ImportError]. *)
Fixpoint from_import (defined : list string) (names : list string)
  : result unit :=
  match names with
  | [] => Ok tt
  | n :: rest =>
      if bool_decide (n ∈ defined) then from_import defined rest
      else Raise (ImportError n)
  end.

(** websocket.py, line 8. *)
Definition websocket_imports : list string :=
  ["DOMAIN"; "MSG_TYPE_MSG"; "MSG_TYPE_HEARTBEAT"; "HEARTBEAT_INTERVAL";
   "HEARTBEAT_TIMEOUT"; "RECONNECT_INTERVAL"].

End Const.

(** ** The message codec: [MyWebSocket.handle_message] *)
Module Codec.

(** Characters that Python's [str.strip()] removes, within U+0000..U+00FF. *)
Definition py_isspace (c : Ascii.ascii) : bool :=
  let n := Ascii.nat_of_ascii c in
  ((9 <=? n) && (n <=? 13)) || ((28 <=? n) && (n <=? 32))
  || (n =? 133) || (n =? 160).

Fixpoint drop_space (l : list Ascii.ascii) : list Ascii.ascii :=
  match l with
  | c :: r => if py_isspace c then drop_space r else l
  | [] => []
  end.

Definition py_strip (s : string) : string :=
  String.string_of_list_ascii
    (rev (drop_space (rev (drop_space (String.list_ascii_of_string s))))).

(** [str.lower()] on U+0000..U+00FF: A-Z and the Latin-1 capitals. *)
Definition py_lower_char (c : Ascii.ascii) : Ascii.ascii :=
  let n := Ascii.nat_of_ascii c in
  if ((65 <=? n) && (n <=? 90)) || ((192 <=? n) && (n <=? 222) && negb (n =? 215))
  then Ascii.ascii_of_nat (n + 32) else c.

Definition py_lower (s : string) : string :=
  String.string_of_list_ascii (map py_lower_char (String.list_ascii_of_string s)).

(** Line 180: [message.strip().lower() == "ok"]. *)
Definition is_ok_ack (message : string) : bool :=
  String.eqb (py_lower (py_strip message)) "ok".

Section HandleMessage.

(** [json.loads]: a decoded value, or the exception it raises
    ([JSONDecodeError] on malformed text, [RecursionError] on deep
    nesting). *)
Variable json_loads : string -> result pyval.

(** The [try] body, lines 187-197: returns the new [_latest_raw_data]. *)
Definition handle_json (message : string) (latest : gmap string pyval)
  : result (gmap string pyval * list level) :=
  match json_loads message with
  | Raise e => Raise e
  | Ok data =>
      match py_get data "ModeCode" with
      | Raise e => Raise e
      | Ok mode =>
          if py_eq_str mode Const.MSG_TYPE_HEARTBEAT
          then Ok (latest, [Debug; Debug])
          else match data with
               | PDict kvs => Ok (dict_update latest (dict_of kvs), [Debug])
               | _ => Raise (AttributeError "update")
               end
      end
  end.

(** Lines 175-203. *)
Definition handle_message (message : string) (latest : gmap string pyval)
  : result (gmap string pyval * list level) :=
  if is_ok_ack message then Ok (latest, [Debug; Debug])
  else
    match handle_json message latest with
    | Ok (d, logs) => Ok (d, Debug :: logs)
    | Raise JSONDecodeError => Ok (latest, [Debug; Warning])
    | Raise _ => Ok (latest, [Debug; Error])
    end.

(** The snapshot after a sequence of frames (a frame whose handling
    raised would leave the snapshot as it was). *)
Definition run_frames (latest : gmap string pyval) (frames : list string)
  : gmap string pyval :=
  fold_left (fun d f => match handle_message f d with
                        | Ok (d', _) => d'
                        | Raise _ => d
                        end) frames latest.

(** The spec's view: the data frames are the decoded JSON objects that are
    neither the acknowledgement token nor a heartbeat echo. *)
Definition decoded_object (frame : string) : option (gmap string pyval) :=
  if is_ok_ack frame then None
  else match json_loads frame with
       | Ok (PDict kvs) =>
           match dict_of kvs !! "ModeCode" with
           | Some (PStr m) => if String.eqb m "heart_beat" then None
                              else Some (dict_of kvs)
           | _ => Some (dict_of kvs)
           end
       | _ => None
       end.

Definition data_frames (frames : list string) : list (gmap string pyval) :=
  omap decoded_object frames.

(** Last write wins: the value of [k] in the last update that has [k],
    else the initial one. *)
Definition merged_lookup (init : gmap string pyval)
  (updates : list (gmap string pyval)) (k : string) : option pyval :=
  fold_left (fun acc u => match u !! k with Some v => Some v | None => acc end)
    updates (init !! k).

End HandleMessage.

End Codec.

(** ** The connection supervisor: [MyWebSocket] *)
Module Supervisor.

(** A background task ([asyncio.Task]) as seen through its handle. *)
Inductive tstat : Type :=
| TRunning     (* the loop body is live *)
| TCancelled   (* [task.cancel()] was called; it ends at its next step *)
| TDone.       (* the coroutine has returned *)

(** One call of [websockets.connect(...)] under [asyncio.wait_for]:
    the timeout it was given and the value of [_shutting_down] then. *)
Record attempt : Type := mk_attempt { at_timeout : nat; at_shutting : bool }.

(** Program points of the coroutines that touch the connection state.
    [KConnect]/[KClear] say whose [_cleanup_connection_resources] a frame
    is running (the one called at line 53, or the one called at line 287). *)
Inductive ctx : Type := KConnect | KClear.

Inductive pc : Type :=
| RStart              (* [_reconnect_cooldown_and_attempt] created, line 246 *)
| RWaitLock           (* suspended in [async with self._reconnect_lock], line 250 *)
| CleanHB (k : ctx)   (* suspended in [await self.heartbeat_task], line 93 *)
| CleanRX (k : ctx)   (* suspended in [await self.receive_task], line 103 *)
| CleanWS (k : ctx)   (* suspended in [await self.ws.close()], line 112 *)
| Connecting          (* suspended in [asyncio.wait_for(websockets.connect ...)], line 57 *)
| RSleep              (* suspended in [asyncio.sleep(RECONNECT_INTERVAL)], line 276 *)
| ClearStart          (* [clear()] called, line 283 *)
| Done.

(** The instance attributes of [MyWebSocket] (lines 17-27) together with
    the coroutines that run on it and the connection attempts made so far. *)
Record sup : Type := mk_sup {
  is_connected : bool;                   (* _is_connected *)
  shutting_down : bool;                  (* _shutting_down *)
  ws_open : bool;                        (* self.ws is not None *)
  heartbeat_task : option tstat;
  receive_task : option tstat;
  has_hass : bool;                       (* self.hass is not None *)
  lock_owner : option nat;               (* _reconnect_lock *)
  lock_waiters : list nat;               (* its FIFO of waiting tasks *)
  threads : list pc;                     (* coroutines, by task id *)
  attempts : list attempt;               (* websockets.connect calls *)
  latest_raw_data : gmap string pyval    (* _latest_raw_data *)
}.

Definition set_connected (b : bool) (s : sup) : sup :=
  mk_sup b (shutting_down s) (ws_open s) (heartbeat_task s) (receive_task s)
    (has_hass s) (lock_owner s) (lock_waiters s) (threads s) (attempts s)
    (latest_raw_data s).
Definition set_shutting (b : bool) (s : sup) : sup :=
  mk_sup (is_connected s) b (ws_open s) (heartbeat_task s) (receive_task s)
    (has_hass s) (lock_owner s) (lock_waiters s) (threads s) (attempts s)
    (latest_raw_data s).
Definition set_ws (b : bool) (s : sup) : sup :=
  mk_sup (is_connected s) (shutting_down s) b (heartbeat_task s) (receive_task s)
    (has_hass s) (lock_owner s) (lock_waiters s) (threads s) (attempts s)
    (latest_raw_data s).
Definition set_hb (t : option tstat) (s : sup) : sup :=
  mk_sup (is_connected s) (shutting_down s) (ws_open s) t (receive_task s)
    (has_hass s) (lock_owner s) (lock_waiters s) (threads s) (attempts s)
    (latest_raw_data s).
Definition set_rx (t : option tstat) (s : sup) : sup :=
  mk_sup (is_connected s) (shutting_down s) (ws_open s) (heartbeat_task s) t
    (has_hass s) (lock_owner s) (lock_waiters s) (threads s) (attempts s)
    (latest_raw_data s).
Definition set_lock (o : option nat) (w : list nat) (s : sup) : sup :=
  mk_sup (is_connected s) (shutting_down s) (ws_open s) (heartbeat_task s)
    (receive_task s) (has_hass s) o w (threads s) (attempts s)
    (latest_raw_data s).
Definition set_threads (ts : list pc) (s : sup) : sup :=
  mk_sup (is_connected s) (shutting_down s) (ws_open s) (heartbeat_task s)
    (receive_task s) (has_hass s) (lock_owner s) (lock_waiters s) ts
    (attempts s) (latest_raw_data s).
Definition add_attempt (a : attempt) (s : sup) : sup :=
  mk_sup (is_connected s) (shutting_down s) (ws_open s) (heartbeat_task s)
    (receive_task s) (has_hass s) (lock_owner s) (lock_waiters s) (threads s)
    (attempts s ++ [a]) (latest_raw_data s).
Definition set_data (d : gmap string pyval) (s : sup) : sup :=
  mk_sup (is_connected s) (shutting_down s) (ws_open s) (heartbeat_task s)
    (receive_task s) (has_hass s) (lock_owner s) (lock_waiters s) (threads s)
    (attempts s) d.

(** [MyWebSocket(url)] followed by [init(hass)] before its connect call. *)
Definition initial : sup :=
  mk_sup false false false None None true None [] [] [] ∅.

(** Lines 228-238: [asyncio.create_task(self._reconnect_cooldown_and_attempt())]
    appends a new coroutine, unless shutting down or without [hass]. *)
Definition schedule_reconnect (s : sup) : sup :=
  if shutting_down s then s
  else if has_hass s then set_threads (threads s ++ [RStart]) s
  else s.

(** Lines 221-226. *)
Definition handle_disconnect (s : sup) : sup :=
  if is_connected s then schedule_reconnect (set_connected false s) else s.

(** Outcome of the awaited [websockets.connect] under the 10 s timeout. *)
Inductive conn_outcome : Type :=
| ConnOk | ConnTimeout | ConnWsError | ConnOSError | ConnOther.

(** Lines 62-69: the socket is stored, the flag set, both tasks started. *)
Definition on_connected (s : sup) : sup :=
  set_rx (Some TRunning) (set_hb (Some TRunning) (set_connected true (set_ws true s))).

(** The call at line 57: [asyncio.wait_for(..., timeout=10)]. *)
Definition open_attempt (s : sup) : sup :=
  add_attempt (mk_attempt 10 (shutting_down s)) s.

(** *** Sequential reading: every [await] runs to completion at once *)

(** Lines 88-116: cancel and await each task, close the socket, clear the
    flag; the exceptions of the awaits are all caught, so it never raises. *)
Definition cleanup_connection_resources (s : sup) : sup :=
  set_connected false (set_ws false (set_rx None (set_hb None s))).

(** Lines 36-85: the returned bool or the raised exception, with the
    state after the call. *)
Definition connect_and_start_tasks (o : conn_outcome) (s : sup)
  : sup * result bool :=
  if is_connected s then (s, Ok true)
  else if shutting_down s then (s, Ok false)
  else
    let s1 := open_attempt (cleanup_connection_resources s) in
    match o with
    | ConnOk => (on_connected s1, Ok true)
    | _ => (set_connected false s1, Raise ConnectionError)
    end.

(** Lines 283-288. *)
Definition clear (s : sup) : sup :=
  cleanup_connection_resources (set_shutting true s).

(** Outcome of [await self.ws.send(json.dumps(message))]. *)
Inductive send_outcome : Type :=
| SendOk | SendClosed | SendOtherError.

(** Lines 205-219: the state after the call, what it returned or raised,
    and what it logged. *)
Definition send_message (o : send_outcome) (s : sup)
  : sup * result unit * list level :=
  if negb (is_connected s) || negb (ws_open s) then (s, Ok tt, [Warning])
  else match o with
       | SendOk => (s, Ok tt, [Debug])
       | SendClosed => (handle_disconnect s, Ok tt, [Error])
       | SendOtherError => (handle_disconnect s, Ok tt, [Error])
       end.

(** Lines 290-292. *)
Definition get_latest_data (s : sup) : gmap string pyval := latest_raw_data s.

(** One turn of the receive loop (lines 146-169) on a received frame:
    [handle_message], and [_handle_disconnect] if that raised. *)
Definition receive_frame (json_loads : string -> result pyval) (frame : string)
  (s : sup) : sup * bool :=
  match Codec.handle_message json_loads frame (latest_raw_data s) with
  | Ok (d, _) => (set_data d s, true)                    (* loop goes on *)
  | Raise _ => (handle_disconnect s, false)               (* break *)
  end.

(** *** Interleaved reading: the asyncio event loop

    Each coroutine runs without interruption from one [await] that really
    suspends to the next one.  The heartbeat and receive loops only enter
    through [_handle_disconnect] and their exit, given as [env_event]s; the
    reconnect sessions and [clear()] are the coroutines of [threads]. *)

(** Leaving [async with self._reconnect_lock]: the first waiter, if any,
    takes the lock when it resumes ([asyncio.Lock] gives no barging). *)
Definition release (s : sup) : sup := set_lock None (lock_waiters s) s.

(** Lines 116 and then 53-57 (from [connect_and_start_tasks]) or 288
    (from [clear]). *)
Definition after_cleanup (k : ctx) (s : sup) : sup * pc :=
  let s := set_connected false s in
  match k with
  | KConnect => (open_attempt s, Connecting)
  | KClear => (s, Done)
  end.

(** Lines 110-115: closing an open socket waits for the closing handshake. *)
Definition cleanup_ws (k : ctx) (s : sup) : sup * pc :=
  if ws_open s then (s, CleanWS k) else after_cleanup k s.

(** Lines 100-108: a finished task is awaited without suspending. *)
Definition cleanup_rx (k : ctx) (s : sup) : sup * pc :=
  match receive_task s with
  | Some TRunning | Some TCancelled => (set_rx (Some TCancelled) s, CleanRX k)
  | Some TDone => cleanup_ws k (set_rx None s)
  | None => cleanup_ws k s
  end.

(** Lines 90-98. *)
Definition cleanup_hb (k : ctx) (s : sup) : sup * pc :=
  match heartbeat_task s with
  | Some TRunning | Some TCancelled => (set_hb (Some TCancelled) s, CleanHB k)
  | Some TDone => cleanup_rx k (set_hb None s)
  | None => cleanup_rx k s
  end.

(** Line 262 entering [connect_and_start_tasks] (lines 42-53); a [False]
    return does not break the loop and goes on to the sleep of line 276. *)
Definition connect_call (s : sup) : sup * pc :=
  if is_connected s then (release s, Done)
  else if shutting_down s then (s, RSleep)
  else cleanup_hb KConnect s.

(** Line 257, holding the lock: loop or leave the [async with]. *)
Definition loop_head (s : sup) : sup * pc :=
  if negb (is_connected s) && negb (shutting_down s) then connect_call s
  else (release s, Done).

(** Line 252, right after the lock is taken. *)
Definition after_acquire (s : sup) : sup * pc :=
  if is_connected s then (release s, Done) else loop_head s.

(** One uninterrupted run of coroutine [i] from program point [p]; [None]
    when it cannot run (finished, or still waiting for the lock).  [o] is
    the outcome of the connection attempt it resumes from, if any. *)
Definition exec (i : nat) (o : conn_outcome) (p : pc) (s : sup)
  : option (sup * pc) :=
  match p with
  | RStart =>
      if shutting_down s then Some (s, Done)
      else match lock_owner s, lock_waiters s with
           | None, [] => Some (after_acquire (set_lock (Some i) [] s))
           | _, _ => Some (set_lock (lock_owner s) (lock_waiters s ++ [i]) s, RWaitLock)
           end
  | RWaitLock =>
      match lock_owner s, lock_waiters s with
      | None, j :: rest =>
          if decide (i = j) then Some (after_acquire (set_lock (Some i) rest s))
          else None
      | _, _ => None
      end
  | CleanHB k => Some (cleanup_rx k (set_hb None s))
  | CleanRX k => Some (cleanup_ws k (set_rx None s))
  | CleanWS k => Some (after_cleanup k (set_ws false s))
  | Connecting =>
      match o with
      | ConnOk => Some (release (on_connected s), Done)  (* lines 263-265 *)
      | _ => Some (set_connected false s, RSleep)       (* lines 74-79, 266-276 *)
      end
  | RSleep => Some (loop_head s)
  | ClearStart => Some (cleanup_hb KClear (set_shutting true s))
  | Done => None
  end.

Definition run_thread (i : nat) (o : conn_outcome) (s : sup) : option sup :=
  match threads s !! i with
  | Some p =>
      match exec i o p s with
      | Some (s', p') => Some (set_threads (<[i := p']> (threads s')) s')
      | None => None
      end
  | None => None
  end.

(** What the heartbeat and receive tasks and the caller do:
    - a failed heartbeat send runs [_handle_disconnect] inside
      [send_message] (lines 214-219); the loop then ends at its next test;
    - the receive loop runs [_handle_disconnect] and breaks (lines 149-169);
    - a loop whose condition (line 122 / 142) fails returns;
    - the caller (unload) calls [clear()]. *)
Inductive env_event : Type :=
| DetectHB | DetectRX | ExitHB | ExitRX | CallClear.

Definition env_step (e : env_event) (s : sup) : option sup :=
  match e with
  | DetectHB =>
      match heartbeat_task s with
      | Some TRunning => Some (handle_disconnect s)
      | _ => None
      end
  | DetectRX =>
      match receive_task s with
      | Some TRunning => Some (handle_disconnect (set_rx (Some TDone) s))
      | _ => None
      end
  | ExitHB =>
      match heartbeat_task s with
      | Some TRunning =>
          if negb (is_connected s) || shutting_down s
          then Some (set_hb (Some TDone) s) else None
      | _ => None
      end
  | ExitRX =>
      match receive_task s with
      | Some TRunning =>
          if negb (is_connected s) || shutting_down s
          then Some (set_rx (Some TDone) s) else None
      | _ => None
      end
  | CallClear => Some (set_threads (threads s ++ [ClearStart]) s)
  end.

Inductive step : sup -> sup -> Prop :=
| step_thread i o s s' : run_thread i o s = Some s' -> step s s'
| step_env e s s' : env_step e s = Some s' -> step s s'.

(** No coroutine of this model has been created yet and the lock is free. *)
Definition quiescent (s : sup) : Prop :=
  threads s = [] /\ lock_owner s = None /\ lock_waiters s = [].

(** The retry body of a reconnect session: from the first connection
    attempt of the loop to its exit. *)
Definition in_body (p : pc) : bool :=
  match p with
  | CleanHB KConnect | CleanRX KConnect | CleanWS KConnect
  | Connecting | RSleep => true
  | _ => false
  end.

(** A schedule: which coroutine runs (and how its pending attempt ends),
    or what the tasks and the caller do. *)
Inductive action : Type :=
| AThread (i : nat) (o : conn_outcome)
| AEnv (e : env_event).

Definition run_action (a : action) (s : sup) : option sup :=
  match a with
  | AThread i o => run_thread i o s
  | AEnv e => env_step e s
  end.

Fixpoint run_script (s : sup) (acts : list action) : option sup :=
  match acts with
  | [] => Some s
  | a :: rest =>
      match run_action a s with
      | Some s' => run_script s' rest
      | None => None
      end
  end.

End Supervisor.

(** ** coordinator.py and the setup in __init__.py *)
Module Coordinator.
Import Supervisor.

(** [CrealityK1DataUpdateCoordinator]: its websocket, [latest_data], and the
    [last_update_success] flag kept by [DataUpdateCoordinator]. *)
Record coord : Type := mk_coord {
  websocket : sup;
  latest_data : gmap string pyval;
  last_update_success : bool
}.

(** [__init__.py] line 46: [update_interval=timedelta(seconds=5)]. *)
Definition update_interval_seconds : nat := 5.

(** Lines 56-63. *)
Definition process_raw_data (raw_data stored_data : gmap string pyval)
  : gmap string pyval :=
  dict_update stored_data raw_data.

(** Lines 37-54.  [get_latest_data] returns a copy and raises nothing, and
    [process_raw_data] raises nothing, so neither [except] branch is taken. *)
Definition async_update_data (c : coord) : coord * result (gmap string pyval) :=
  let raw_data := get_latest_data (websocket c) in
  if bool_decide (raw_data = ∅) then (c, Ok (latest_data c))
  else let d := process_raw_data raw_data (latest_data c) in
       (mk_coord (websocket c) d (last_update_success c), Ok d).

(** One poll of [DataUpdateCoordinator]: run the update and record whether
    it succeeded ([UpdateFailed] makes it [False]). *)
Definition poll (c : coord) : coord * result (gmap string pyval) :=
  let (c', r) := async_update_data c in
  match r with
  | Ok d => (mk_coord (websocket c') (latest_data c') true, Ok d)
  | Raise e => (mk_coord (websocket c') (latest_data c') false, Raise e)
  end.

End Coordinator.

(** ** The entities' [available] property *)
Module Entities.
Import Supervisor Coordinator.

(** Attribute lookup on a [MyWebSocket] instance: the attributes set in
    [__init__] (lines 19-27) and its methods; anything else raises
    [AttributeError]. *)
Inductive attr : Type := ABool (b : bool) | AObject.

Definition mywebsocket_attrs : list string :=
  ["url"; "ws"; "heartbeat_task"; "receive_task"; "_is_connected";
   "_latest_raw_data"; "hass"; "_reconnect_lock"; "_shutting_down";
   "init"; "connect_and_start_tasks"; "_cleanup_connection_resources";
   "_send_heartbeat_loop"; "_receive_messages_loop"; "handle_message";
   "send_message"; "_handle_disconnect"; "_schedule_reconnect";
   "_reconnect_cooldown_and_attempt"; "clear"; "get_latest_data"].

Definition websocket_getattr (s : sup) (name : string) : result attr :=
  if String.eqb name "_is_connected" then Ok (ABool (is_connected s))
  else if String.eqb name "_shutting_down" then Ok (ABool (shutting_down s))
  else if bool_decide (name ∈ mywebsocket_attrs) then Ok AObject
  else Raise (AttributeError name).

(** What an entity holds as [self.coordinator]: sensor, switch, climate and
    button take [hass.data[DOMAIN][entry_id]], the dict stored at lines
    99-102 of __init__.py; fan takes its ["coordinator"] entry. *)
Inductive holder : Type :=
| HCoordinator (c : coord)
| HEntryDict (c : coord).

Definition holder_getattr_websocket (h : holder) : result sup :=
  match h with
  | HCoordinator c => Ok (websocket c)
  | HEntryDict _ => Raise (AttributeError "websocket")
  end.

Definition holder_last_update_success (h : holder) : result bool :=
  match h with
  | HCoordinator c => Ok (last_update_success c)
  | HEntryDict _ => Raise (AttributeError "last_update_success")
  end.

(** sensor.py 69-71, switch.py 67-69, climate.py 101-103, button.py 67-69:
    [self.coordinator.websocket.is_connected and super().available], where
    [CoordinatorEntity.available] is [coordinator.last_update_success]. *)
Definition k1_available (h : holder) : result bool :=
  match holder_getattr_websocket h with
  | Raise e => Raise e
  | Ok ws =>
      match websocket_getattr ws "is_connected" with
      | Raise e => Raise e
      | Ok (ABool false) => Ok false
      | Ok _ => holder_last_update_success h
      end
  end.

(** custom_component fan.py: [K1Fan] does not override [available], so it
    is [CoordinatorEntity.available]. *)
Definition fan_available (h : holder) : result bool :=
  holder_last_update_success h.

(** How each platform's setup wires [self.coordinator] from the stored
    entry data (sensor.py 25, switch.py 25, climate.py 29, button.py 26,
    fan.py 26). *)
Inductive platform : Type := PSensor | PSwitch | PClimate | PButton | PFan.

Definition wired_holder (p : platform) (c : coord) : holder :=
  match p with
  | PFan => HCoordinator c
  | _ => HEntryDict c
  end.

Definition entity_available (p : platform) (h : holder) : result bool :=
  match p with
  | PFan => fan_available h
  | _ => k1_available h
  end.

End Entities.

(** ** The spec's contracts, for comparison with the code *)
Module Contracts.
Import Supervisor.

(** The contract of [connect()] as the spec words it, for a supervisor
    that is not connected. *)
Definition connect_contract : Prop :=
  forall (o : conn_outcome) (s : sup), is_connected s = false ->
    let (s', r) := connect_and_start_tasks o s in
    attempts s' = attempts s ++ [mk_attempt 10 (shutting_down s)] /\
    threads s' = threads s /\
    (o = ConnOk -> r = Ok true /\ is_connected s' = true /\
                   heartbeat_task s' = Some TRunning /\
                   receive_task s' = Some TRunning) /\
    (o <> ConnOk -> r = Raise ConnectionError /\ is_connected s' = false).

(** The contract of [send_message] as the spec words it. *)
Definition send_contract : Prop :=
  forall (o : send_outcome) (s : sup),
    let '(s', r, _) := send_message o s in
    r = Ok tt /\
    (is_connected s = true -> ws_open s = true -> o <> SendOk ->
       is_connected s' = false /\ threads s' = threads s ++ [RStart]).

(** The contract of the polling adapter as the spec words it: a poll while
    disconnected tries to connect or reports a failure. *)
Definition poll_contract : Prop :=
  forall c : Coordinator.coord,
    is_connected (Coordinator.websocket c) = false ->
    let (c', r) := Coordinator.async_update_data c in
    attempts (Coordinator.websocket c') <> attempts (Coordinator.websocket c)
    \/ r = Raise UpdateFailed.

(** A supervisor torn down by [clear()] while disconnected. *)
Definition shut_down_idle : sup := set_shutting true initial.

(** A supervisor that is connected while [clear()] is under way. *)
Definition connected_shutting : sup :=
  set_shutting true (on_connected initial).

(** A [MyWebSocket(url)] (lines 17-27) connected by a direct call of
    [connect_and_start_tasks], without [init(hass)]: [hass] is [None] and
    the shutdown flag is not set. *)
Definition connected_without_hass : sup :=
  fst (connect_and_start_tasks ConnOk
         (mk_sup false false false None None false None [] [] [] ∅)).

(** A coordinator whose websocket has data but is not connected. *)
Definition disconnected_coord : Coordinator.coord :=
  Coordinator.mk_coord (set_data {[ "nozzleTemp" := PInt 210 ]} initial) ∅ true.

(** After [clear()] has set the shutdown flag, no schedule makes another
    connection attempt. *)
Definition no_attempt_after_shutdown : Prop :=
  forall s0 s1 s2, quiescent s0 -> rtc step s0 s1 ->
    shutting_down s1 = true -> rtc step s1 s2 -> attempts s2 = attempts s1.

(** Connected, both tasks running, no session, lock free. *)
Definition connected_idle : sup := on_connected initial.

(** The receive task times out and schedules a session, which takes the
    lock, enters [connect_and_start_tasks] past its shutdown test and
    suspends awaiting the cancelled heartbeat task (line 93); the caller
    then runs [clear()], which sets the flag and suspends at line 93 too. *)
Definition race_to_clear : list action :=
  [AEnv DetectRX; AThread 0 ConnOk; AEnv CallClear; AThread 1 ConnOk].

(** The session resumes: it clears the tasks, suspends closing the socket
    (line 112), resumes and reaches [websockets.connect] (line 57). *)
Definition race_after_clear : list action :=
  [AThread 0 ConnOk; AThread 0 ConnOk].

(** A disconnect that starts one reconnect session. *)
Definition one_session : list action := [AEnv DetectRX; AThread 0 ConnTimeout].

End Contracts.

(** The two frames of Scenario C, and a decoder that knows them. *)
Module ScenarioCData.
Import Codec.

Definition dq : string := String.String (Ascii.ascii_of_nat 34) String.EmptyString.
Definition frame1 : string :=
  ("{" ++ dq ++ "nozzleTemp" ++ dq ++ ": 210, " ++ dq ++ "bedTemp0" ++ dq ++ ": 60}")%string.
Definition frame2 : string := ("{" ++ dq ++ "bedTemp0" ++ dq ++ ": 61}")%string.
Definition frame_ok_quoted : string := (dq ++ "ok" ++ dq)%string.

Definition loads (s : string) : result pyval :=
  if String.eqb s frame1 then Ok (PDict [("nozzleTemp", PInt 210); ("bedTemp0", PInt 60)])
  else if String.eqb s frame2 then Ok (PDict [("bedTemp0", PInt 61)])
  else if String.eqb s frame_ok_quoted then Ok (PStr "ok")
  else Raise JSONDecodeError.

End ScenarioCData.

(** ** Python builtins used by the helpers and the entities *)
Module Builtins.
Local Open Scope Z_scope.

(** Exceptions beyond those of [Py.exn]: the builtins below raise
    [ValueError], [OverflowError], [IndexError] and [KeyError]. *)
Inductive err : Type :=
| Exc (e : exn)
| ValueError
| OverflowError
| IndexError
| KeyError
| ConfigEntryNotReady
| CannotConnect.

Inductive outcome (A : Type) : Type :=
| Val (a : A)
| Exn (e : err).
Arguments Val {A} a.
Arguments Exn {A} e.

(** [bool(v)]. *)
Definition py_truthy (v : pyval) : bool :=
  match v with
  | PNone => false
  | PBool b => b
  | PInt z => negb (Z.eqb z 0)
  | PFloat m _ => negb (Z.eqb m 0)
  | PStr s => negb (String.eqb s "")
  | PList xs => negb (Nat.eqb (length xs) 0)
  | PDict kvs => negb (Nat.eqb (length kvs) 0)
  end.

(** The characters [_], [-], [+], [;] and [:]. *)
Definition ch_underscore : Ascii.ascii := Ascii.ascii_of_nat 95.
Definition ch_minus : Ascii.ascii := Ascii.ascii_of_nat 45.
Definition ch_plus : Ascii.ascii := Ascii.ascii_of_nat 43.
Definition ch_semicolon : Ascii.ascii := Ascii.ascii_of_nat 59.
Definition ch_colon : Ascii.ascii := Ascii.ascii_of_nat 58.

(** [d.get(k)] on a dict with string keys. *)
Definition dict_get (d : gmap string pyval) (k : string) : pyval :=
  default PNone (d !! k).

(** [s.split(sep)] for a one-character separator: every occurrence
    splits, so there is always one more piece than separators. *)
Fixpoint py_split (sep : Ascii.ascii) (s : string) : list string :=
  match s with
  | EmptyString => [EmptyString]
  | String c r =>
      let ps := py_split sep r in
      if Ascii.eqb c sep then EmptyString :: ps
      else match ps with
           | p :: ps' => String c p :: ps'
           | [] => [String c EmptyString]
           end
  end.

(** [xs[i]] for a non-negative index. *)
Definition py_index {A} (xs : list A) (i : nat) : outcome A :=
  match xs !! i with
  | Some x => Val x
  | None => Exn IndexError
  end.

(** [int(s)] for a string, base 10: surrounding whitespace, an optional
    sign, then ASCII digits with single underscores between digits. *)
Definition is_digit (c : Ascii.ascii) : bool :=
  let n := Ascii.nat_of_ascii c in Nat.leb 48 n && Nat.leb n 57.

Definition digit_val (c : Ascii.ascii) : Z := Z.of_nat (Ascii.nat_of_ascii c - 48).

Fixpoint parse_digits (l : list Ascii.ascii) (acc : Z) : option Z :=
  match l with
  | [] => Some acc
  | c :: r =>
      if is_digit c then parse_digits r (acc * 10 + digit_val c)
      else if Ascii.eqb c ch_underscore then
        match r with
        | d :: r' => if is_digit d then parse_digits r' (acc * 10 + digit_val d)
                     else None
        | [] => None
        end
      else None
  end.

Definition parse_unsigned (l : list Ascii.ascii) : option Z :=
  match l with
  | d :: r => if is_digit d then parse_digits r (digit_val d) else None
  | [] => None
  end.

Definition parse_int (s : string) : outcome Z :=
  let l := String.list_ascii_of_string (Codec.py_strip s) in
  let r := match l with
           | c :: rest =>
               if Ascii.eqb c ch_minus then option_map Z.opp (parse_unsigned rest)
               else if Ascii.eqb c ch_plus then parse_unsigned rest
               else parse_unsigned l
           | [] => None
           end in
  match r with
  | Some n => Val n
  | None => Exn ValueError
  end.

(** [int(v)]: a [bool] is an [int]; a float is truncated toward zero
    ([pyval] floats are exact decimals [mant * 10^exp10]). *)
Definition py_int (v : pyval) : outcome Z :=
  match v with
  | PBool b => Val (if b then 1 else 0)%Z
  | PInt z => Val z
  | PFloat m e => Val (if Z.leb 0 e then m * 10 ^ e else Z.quot m (10 ^ (- e)))%Z
  | PStr s => parse_int s
  | _ => Exn (Exc TypeError)
  end.

(** Binary64 floats, as [SpecFloat] (IEEE 754, round to nearest even). *)
Definition b64 := SpecFloat.spec_float.

(** [float(n)] for an int: correctly rounded; [OverflowError] when the
    rounded value is out of range. *)
Definition float_of_int (n : Z) : b64 :=
  SpecFloat.binary_normalize 53 1024 n 0 false.

(** [a / b] for two ints below [2^53]: CPython divides the two exactly
    converted doubles. *)
Definition py_truediv (a b : Z) : b64 :=
  SpecFloat.SFdiv 53 1024 (float_of_int a) (float_of_int b).

(** [x * n] for a float and an int. *)
Definition py_mul_int (x : b64) (n : Z) : b64 :=
  SpecFloat.SFmul 53 1024 x (float_of_int n).

(** [m * 2^e] rounded to the nearest integer, ties to even. *)
Definition round_half_even (m e : Z) : Z :=
  if Z.leb 0 e then m * 2 ^ e
  else
    let d := 2 ^ (- e) in
    let q := m / d in
    let r := m mod d in
    match Z.compare (2 * r) d with
    | Lt => q
    | Gt => q + 1
    | Eq => if Z.even q then q else q + 1
    end.

(** [round(x)] for a float: an int, ties to even. *)
Definition py_round (x : b64) : outcome Z :=
  match x with
  | SpecFloat.S754_zero _ => Val 0
  | SpecFloat.S754_finite s m e =>
      let n := round_half_even (Zpos m) e in
      Val (if s then - n else n)
  | SpecFloat.S754_infinity _ => Exn OverflowError
  | SpecFloat.S754_nan => Exn ValueError
  end.

(** A finite double as a [pyval]: [m * 2^e] is the decimal
    [m * 5^-e * 10^e] exactly. *)
Definition pyval_of_b64 (x : b64) : outcome pyval :=
  match x with
  | SpecFloat.S754_zero _ => Val (PFloat 0 0)
  | SpecFloat.S754_finite s m e =>
      let sm := if s then Zneg m else Zpos m in
      if Z.leb 0 e then Val (PFloat (sm * 2 ^ e) 0)
      else Val (PFloat (sm * 5 ^ (- e)) e)
  | SpecFloat.S754_infinity _ => Exn OverflowError
  | SpecFloat.S754_nan => Exn ValueError
  end.

(** [str(n)] for an int. *)
Fixpoint digits_rev (fuel : nat) (n : Z) : list Ascii.ascii :=
  match fuel with
  | O => []
  | S f =>
      Ascii.ascii_of_nat (48 + Z.to_nat (n mod 10))
        :: (if Z.ltb n 10 then [] else digits_rev f (n / 10))
  end.

Definition py_str_int (n : Z) : string :=
  let body a := String.string_of_list_ascii
                  (rev (digits_rev (S (Z.to_nat (Z.log2 a))) a)) in
  if Z.ltb n 0 then String ch_minus (body (- n)) else body n.

End Builtins.
Import Builtins.

(** ** helpers.py *)
Module Helpers.
Local Open Scope Z_scope.

Section ToFloat.

(** [float(s)] for a string: a double, or [ValueError]. *)
Variable float_of_str : string -> outcome pyval.

(** [float(v)] (the conversion at line 19). *)
Definition py_float (v : pyval) : outcome pyval :=
  match v with
  | PBool b => Val (PFloat (if b then 1 else 0) 0)
  | PInt n => pyval_of_b64 (float_of_int n)
  | PFloat m e => Val (PFloat m e)
  | PStr s => float_of_str s
  | _ => Exn (Exc TypeError)
  end.

(** Lines 11-22. *)
Definition to_float_or_none (data : pyval) (key : string) : outcome (option pyval) :=
  let value := match data with
               | PDict kvs => dict_get (dict_of kvs) key
               | _ => PNone
               end in
  match value with
  | PNone => Val None
  | _ =>
      match py_float value with
      | Val f => Val (Some f)
      | Exn ValueError | Exn (Exc TypeError) => Val None
      | Exn e => Exn e
      end
  end.

End ToFloat.

(** [data.get('modelVersion').split(';')[i].split(':')[1]]. *)
Definition version_field (data : pyval) (i : nat) : outcome string :=
  match data with
  | PDict kvs =>
      match dict_get (dict_of kvs) "modelVersion" with
      | PStr mv =>
          match py_index (py_split ch_semicolon mv) i with
          | Val f => py_index (py_split ch_colon f) 1
          | Exn e => Exn e
          end
      | _ => Exn (Exc (AttributeError "split"))
      end
  | _ => Exn (Exc (AttributeError "get"))
  end.

(** Lines 24-35: the bare [except] turns any exception into
    [(None, None)]. *)
Definition get_hw_sw_versions (data : pyval) : pyval * pyval :=
  match version_field data 2 with
  | Val hw =>
      match version_field data 3 with
      | Val sw => (PStr hw, PStr sw)
      | Exn _ => (PNone, PNone)
      end
  | Exn _ => (PNone, PNone)
  end.

End Helpers.

(** ** fan.py (custom_component): [K1Fan] *)
Module Fan.
Import Supervisor.
Local Open Scope Z_scope.

(** The constructor arguments that the methods read. *)
Record k1fan : Type := mk_fan {
  percentage_key : string;
  toggle_key : string;
  p_index : Z
}.

(** const.py, lines 34-38. *)
Definition FAN_CONFIG : list (string * k1fan) :=
  [("Model Fan", mk_fan "modelFanPct" "fan" 0);
   ("Case Fan", mk_fan "caseFanPct" "fanCase" 1);
   ("Side Fan", mk_fan "auxiliaryFanPct" "fanAuxiliary" 2)].

(** [self.coordinator.data]: [None] before the first refresh, then the dict
    returned by the last successful update. *)
Definition data_truthy (data : option (gmap string pyval)) : bool :=
  match data with
  | Some d => bool_decide (d <> ∅)
  | None => false
  end.

(** Lines 89-101. *)
Definition is_on (f : k1fan) (data : option (gmap string pyval)) : outcome (option bool) :=
  match data with
  | Some d =>
      if data_truthy data then
        match dict_get d (toggle_key f) with
        | PNone => Val None
        | v =>
            match py_int v with
            | Val n => Val (Some (Z.eqb n 1))
            | Exn ValueError | Exn (Exc TypeError) => Val None
            | Exn e => Exn e
            end
        end
      else Val None
  | None => Val None
  end.

(** Lines 103-122. *)
Definition percentage (f : k1fan) (data : option (gmap string pyval)) : outcome (option Z) :=
  match is_on f data with
  | Exn e => Exn e
  | Val (Some false) => Val (Some 0)
  | Val None => Val None
  | Val (Some true) =>
      match data with
      | Some d =>
          if data_truthy data then
            match dict_get d (percentage_key f) with
            | PNone => Val None
            | v =>
                match py_int v with
                | Val n => Val (Some (Z.max 0 (Z.min 100 n)))
                | Exn ValueError | Exn (Exc TypeError) => Val None
                | Exn e => Exn e
                end
            end
          else Val None
      | None => Val None
      end
  end.

(** Line 127: [f"M106 P{self._p_index} S{safe_speed}"]. *)
Definition m106_gcode (f : k1fan) (speed_0_255 : Z) : string :=
  ("M106 P" ++ py_str_int (p_index f) ++ " S"
   ++ py_str_int (Z.max 0 (Z.min 255 speed_0_255)))%string.

Definition m106_command (f : k1fan) (speed_0_255 : Z) : pyval :=
  PDict [("method", PStr "set");
         ("params", PDict [("gcodeCmd", PStr (m106_gcode f speed_0_255))])].

(** Lines 124-135: the command handed to [MyWebSocket.send_message], and
    the websocket after it; an exception of the send would be logged. *)
Definition send_m106_command (o : send_outcome) (f : k1fan) (speed_0_255 : Z)
  (s : sup) : sup * pyval :=
  match send_message o s with
  | (s', Ok _, _) => (s', m106_command f speed_0_255)
  | (s', Raise _, _) => (s', m106_command f speed_0_255)
  end.

(** [round(percentage / 100 * 255)] (lines 145 and 162). *)
Definition speed_of_percentage (p : Z) : outcome Z :=
  py_round (py_mul_int (py_truediv p 100) 255).

(** Lines 137-146: [None] when nothing is sent. *)
Definition async_set_percentage (o : send_outcome) (f : k1fan) (p : Z) (s : sup)
  : outcome (option (sup * pyval)) :=
  if Z.ltb p 0 || Z.ltb 100 p then Val None
  else match speed_of_percentage p with
       | Val speed => Val (Some (send_m106_command o f speed s))
       | Exn e => Exn e
       end.

(** Lines 148-164. *)
Definition async_turn_on (o : send_outcome) (f : k1fan) (p : option Z) (s : sup)
  : outcome (sup * pyval) :=
  match p with
  | None => Val (send_m106_command o f 255 s)
  | Some q =>
      match speed_of_percentage (Z.max 1 (Z.min 100 q)) with
      | Val speed => Val (send_m106_command o f speed s)
      | Exn e => Exn e
      end
  end.

(** Lines 166-171. *)
Definition async_turn_off (o : send_outcome) (f : k1fan) (s : sup) : sup * pyval :=
  send_m106_command o f 0 s.

End Fan.

(** ** websocket.py: the heartbeat and receive loops, run sequentially *)
Module Loops.
Import Supervisor.

(** What [await asyncio.wait_for(self.ws.recv(), timeout=6)] gives at
    line 148: a frame, [None], or one of the exceptions caught at lines
    154-169. *)
Inductive recv_event : Type :=
| RMsg (message : string)
| RNone
| RTimeout
| RClosedOK
| RClosedError
| RFailed (e : exn).

Section Receive.
Variable json_loads : string -> result pyval.

(** Lines 139-173 over the frames the socket delivers: the state when the
    loop has returned or waits for the next frame, and the events it has
    not consumed. *)
Fixpoint receive_messages_loop (evs : list recv_event) (s : sup)
  : sup * list recv_event :=
  match evs with
  | [] => (s, [])
  | ev :: rest =>
      if is_connected s && negb (shutting_down s) then
        if ws_open s then
          match ev with
          | RMsg m =>
              let (s', go_on) := receive_frame json_loads m s in
              if go_on then receive_messages_loop rest s' else (s', rest)
          | _ => (handle_disconnect s, rest)      (* lines 149-169: break *)
          end
        else (s, evs)                             (* lines 143-145: break *)
      else (s, evs)                               (* line 142 *)
  end.

End Receive.

(** Lines 119-137 over the outcomes of the successive heartbeat sends: the
    state when the loop has returned or sleeps, and the number of
    [send_message] calls made.  An exception out of [send_message] would
    run [_handle_disconnect] (lines 130-135). *)
Fixpoint send_heartbeat_loop (outs : list send_outcome) (s : sup) : sup * nat :=
  match outs with
  | [] => (s, O)
  | o :: rest =>
      if is_connected s && negb (shutting_down s) then
        if ws_open s then
          match send_message o s with
          | (s', Ok _, _) =>
              let (s'', n) := send_heartbeat_loop rest s' in (s'', S n)
          | (s', Raise _, _) => (handle_disconnect s', 1%nat)
          end
        else (s, O)
      else (s, O)
  end.

End Loops.

(** ** __init__.py: setup, the stored entry data and unload *)
Module Setup.
Import Supervisor Coordinator.

(** [MyWebSocket(url)], lines 17-27. *)
Definition mywebsocket_new : sup :=
  mk_sup false false false None None false None [] [] [] ∅.

(** [init(hass)] before its connect call, lines 29-32. *)
Definition init_websocket (s : sup) : sup :=
  mk_sup (is_connected s) false (ws_open s) (heartbeat_task s) (receive_task s)
    true (lock_owner s) (lock_waiters s) (threads s) (attempts s)
    (latest_raw_data s).

(** Lines 24-31: create and initialise the websocket; any exception of the
    connect call becomes [ConfigEntryNotReady]. *)
Definition setup_websocket (o : conn_outcome) : outcome sup :=
  match connect_and_start_tasks o (init_websocket mywebsocket_new) with
  | (s, Ok _) => Val s
  | (_, Raise _) => Exn ConfigEntryNotReady
  end.

(** The values of the dict stored per entry (lines 99-102). *)
Inductive slot : Type :=
| SCoordinator (c : coord)
| SWebsocket (s : sup).

Abbreviation entry_dict := (gmap string slot).

(** The values of [hass.data]: this integration's dict of entries under
    [DOMAIN], other integrations' data elsewhere. *)
Inductive hval : Type :=
| HDomain (m : gmap string entry_dict)
| HOther.

Abbreviation hass_data := (gmap string hval).

Definition entry_data_of (c : coord) (ws : sup) : entry_dict :=
  <["coordinator" := SCoordinator c]> (<["websocket" := SWebsocket ws]> ∅).

(** Lines 98-102: [setdefault], then the item assignment (which raises
    [TypeError] on a value that is not a dict). *)
Definition store_entry (hd : hass_data) (entry_id : string) (ed : entry_dict)
  : outcome hass_data :=
  let hd1 := match hd !! Const.DOMAIN with
             | Some _ => hd
             | None => <[Const.DOMAIN := HDomain ∅]> hd
             end in
  match hd1 !! Const.DOMAIN with
  | Some (HDomain m) => Val (<[Const.DOMAIN := HDomain (<[entry_id := ed]> m)]> hd1)
  | _ => Exn (Exc TypeError)
  end.


(** Lines 17-102 without the device registry: connect, build the
    coordinator, run the first refresh and store the entry data.  The
    coordinator and the entry dict share the one websocket. *)
Definition async_setup_entry (o : conn_outcome) (hd : hass_data) (entry_id : string)
  : outcome (hass_data * coord) :=
  match setup_websocket o with
  | Exn e => Exn e
  | Val ws =>
      let c := fst (poll (mk_coord ws ∅ true)) in
      match store_entry hd entry_id (entry_data_of c ws) with
      | Exn e => Exn e
      | Val hd' => Val (hd', c)
      end
  end.

End Setup.

(** ** __init__.py: the device name listener, lines 49-93 *)
Module DeviceName.

(** The device registry entry of the config entry: name, model and how
    many times the listener has rewritten it. *)
Record device : Type := mk_device {
  dev_name : pyval;
  dev_model : pyval;
  renames : nat
}.

Record listener : Type := mk_listener {
  hostname_set_flag : bool;
  device_entry : device
}.

(** Lines 50-56: registered under the entry's title, with no model. *)
Definition registered (title : string) : listener :=
  mk_listener false (mk_device (PStr title) PNone 0).

(** One call of [_update_device_name_listener] on [coordinator.data],
    lines 62-80. *)
Definition update_device_name_listener (data : option (gmap string pyval))
  (l : listener) : listener :=
  if hostname_set_flag l || negb (Fan.data_truthy data) then l
  else match data with
       | None => l
       | Some d =>
           let hostname := dict_get d "hostname" in
           let printer_model := default (PStr "K1 Series") (d !! "model") in
           if py_truthy hostname
           then mk_listener true
                  (mk_device hostname printer_model (S (renames (device_entry l))))
           else l
       end.

(** The listener after the first refresh and each later update. *)
Definition run_listener (datas : list (option (gmap string pyval))) (l : listener)
  : listener :=
  fold_left (fun l d => update_device_name_listener d l) datas l.

(** [data] makes the listener rename the device. *)
Definition names_device (data : option (gmap string pyval)) : bool :=
  match data with
  | Some d => Fan.data_truthy data && py_truthy (dict_get d "hostname")
  | None => false
  end.

End DeviceName.

(** ** config_flow.py *)
Module ConfigFlow.

(** What the printer at [ws://{ip_address}:9999] does during the check. *)
Inductive probe : Type :=
| PConnectFails (e : exn)
| PSendFails (e : exn)
| PRecvFails (e : exn)
| PResponds (response : string).

(** Lines 21-35: every exception of the [try] body, including the
    [CannotConnect] raised on an empty response, is re-raised as
    [CannotConnect]. *)
Definition validate_connection (p : probe) : outcome unit :=
  let body := match p with
              | PConnectFails e | PSendFails e | PRecvFails e => Exn (Exc e)
              | PResponds response =>
                  if String.eqb response "" then Exn CannotConnect else Val tt
              end in
  match body with
  | Val _ => Val tt
  | Exn _ => Exn CannotConnect
  end.

Inductive flow_result : Type :=
| ShowForm (errors : gmap string string)
| CreateEntry (title : string) (data : gmap string pyval).

(** Lines 40-58 (const.py 67-68: DEVICE_MANUFACTURER, DEVICE_MODEL). *)
Definition async_step_user (user_input : option (gmap string pyval)) (p : probe)
  : flow_result :=
  match user_input with
  | None => ShowForm ∅
  | Some ui =>
      match validate_connection p with
      | Val _ => CreateEntry ("Creality" ++ " " ++ "K1 Max")%string ui
      | Exn CannotConnect => ShowForm {[ "base" := "cannot_connect" ]}
      | Exn _ => ShowForm {[ "base" := "unknown" ]}
      end
  end.

(** Lines 60-62. *)
Definition async_step_import (user_input : gmap string pyval) (p : probe) : flow_result :=
  async_step_user (Some user_input) p.

End ConfigFlow.

(** ** The entities' reads and commands: sensor.py, switch.py, button.py,
    climate.py *)
Module EntityPaths.
Import Supervisor Coordinator Entities.
Local Open Scope Z_scope.

(** [self.coordinator.data]: the dict [_async_update_data] returned, which
    is [latest_data]; a dict has no [data] attribute. *)
Definition holder_getattr_data (h : holder) : result (gmap string pyval) :=
  match h with
  | HCoordinator c => Ok (latest_data c)
  | HEntryDict _ => Raise (AttributeError "data")
  end.

(** [self.coordinator.send_gcode_command]: neither the entry dict nor
    [CrealityK1DataUpdateCoordinator] (coordinator.py) defines it. *)
Definition holder_getattr_send_gcode_command (h : holder) : result unit :=
  Raise (AttributeError "send_gcode_command").

(** [bool(self.coordinator.data and self.coordinator.websocket.is_connected)],
    the test of the sensors and the switch. *)
Definition data_and_connected (h : holder) : outcome (option (gmap string pyval)) :=
  match holder_getattr_data h with
  | Raise e => Exn (Exc e)
  | Ok d =>
      if bool_decide (d = ∅) then Val None
      else match holder_getattr_websocket h with
           | Raise e => Exn (Exc e)
           | Ok ws =>
               match websocket_getattr ws "is_connected" with
               | Raise e => Exn (Exc e)
               | Ok (ABool false) => Val None
               | Ok _ => Val (Some d)
               end
           end
  end.

(** The temperature sensors, sensor.py 92-105, 136-149, 180-193
    ([float_of_str] is [float] on a string). *)
Definition float_sensor_value (float_of_str : string -> outcome pyval)
  (key : string) (h : holder) : outcome (option pyval) :=
  match data_and_connected h with
  | Exn e => Exn e
  | Val None => Val None
  | Val (Some d) =>
      match dict_get d key with
      | PStr s =>
          match float_of_str s with
          | Val f => Val (Some f)
          | Exn ValueError => Val None
          | Exn e => Exn e
          end
      | (PInt _ | PBool _ | PFloat _ _) as v =>
          match Helpers.py_float float_of_str v with
          | Val f => Val (Some f)
          | Exn e => Exn e
          end
      | _ => Val None
      end
  end.

(** The counting sensors, sensor.py 213-226, 244-257, 275-288, 308-321,
    340-353, 372-385 (a [bool] is an [int] and is returned as it is). *)
Definition int_sensor_value (key : string) (h : holder) : outcome (option pyval) :=
  match data_and_connected h with
  | Exn e => Exn e
  | Val None => Val None
  | Val (Some d) =>
      match dict_get d key with
      | PStr s =>
          match parse_int s with
          | Val n => Val (Some (PInt n))
          | Exn ValueError => Val None
          | Exn e => Exn e
          end
      | (PInt _ | PBool _) as v => Val (Some v)
      | _ => Val None
      end
  end.

(** const.py 69-77. *)
Definition printer_state_name (n : Z) : string :=
  match n with
  | 0 => "Stopped" | 1 => "Printing" | 2 => "Complete"
  | 3 => "Failed" | 4 => "Aborted" | 5 => "Paused"
  | _ => "Unknown"
  end.

(** sensor.py 401-422. *)
Definition print_state_value (h : holder) : outcome (option string) :=
  match data_and_connected h with
  | Exn e => Exn e
  | Val dc =>
      let raw := match dc with Some d => dict_get d "state" | None => PNone end in
      let int_state := match raw with
                       | PInt _ | PBool _ | PStr _ =>
                           match py_int raw with Val n => Some n | Exn _ => None end
                       | _ => None
                       end in
      match int_state with
      | Some n => Val (Some (printer_state_name n))
      | None => Val None
      end
  end.

(** The ten sensors of sensor.py 25-36. *)
Inductive sensor : Type :=
| NozzleTemp | BedTemp | BoxTemp | PrintProgress | TotalLayer | WorkingLayer
| UsedMaterial | PrintJobTime | PrintLeftTime | PrintStateSensor.

Definition sensor_native_value (float_of_str : string -> outcome pyval)
  (x : sensor) (h : holder) : outcome (option pyval) :=
  match x with
  | NozzleTemp => float_sensor_value float_of_str "nozzleTemp" h
  | BedTemp => float_sensor_value float_of_str "bedTemp0" h
  | BoxTemp => float_sensor_value float_of_str "boxTemp" h
  | PrintProgress => int_sensor_value "printProgress" h
  | TotalLayer => int_sensor_value "TotalLayer" h
  | WorkingLayer => int_sensor_value "layer" h
  | UsedMaterial => int_sensor_value "usedMaterialLength" h
  | PrintJobTime => int_sensor_value "printJobTime" h
  | PrintLeftTime => int_sensor_value "printLeftTime" h
  | PrintStateSensor =>
      match print_state_value h with
      | Exn e => Exn e
      | Val r => Val (option_map PStr r)
      end
  end.

(** [v == 1]. *)
Definition py_eq_one (v : pyval) : bool :=
  match v with
  | PBool b => b
  | PInt n => Z.eqb n 1
  | PFloat m e => if Z.leb 0 e then Z.eqb (m * 10 ^ e) 1 else Z.eqb m (10 ^ (- e))
  | _ => false
  end.

(** switch.py 111-118. *)
Definition switch_is_on (h : holder) : outcome (option bool) :=
  match data_and_connected h with
  | Exn e => Exn e
  | Val None => Val None
  | Val (Some d) => Val (Some (py_eq_one (dict_get d "lightSw")))
  end.

(** [self.coordinator.websocket.send_message(command)]: the websocket after
    the send and the command sent. *)
Definition send_via_coordinator (o : send_outcome) (command : pyval) (h : holder)
  : outcome (sup * pyval) :=
  match holder_getattr_websocket h with
  | Raise e => Exn (Exc e)
  | Ok ws =>
      match send_message o ws with
      | (ws', Ok _, _) => Val (ws', command)
      | (_, Raise e, _) => Exn (Exc e)
      end
  end.

(** switch.py 71-79 and 105-109. *)
Definition switch_turn (o : send_outcome) (on : bool) (h : holder) : outcome (sup * pyval) :=
  send_via_coordinator o
    (PDict [("method", PStr "set");
            ("params", PDict [("lightSw", PInt (if on then 1 else 0))])]) h.

(** button.py 71-80 ([params] is the dict of BUTTON_CONTROLS). *)
Definition button_press (o : send_outcome) (params : list (string * pyval)) (h : holder)
  : outcome (sup * pyval) :=
  send_via_coordinator o (PDict [("method", PStr "set"); ("params", PDict params)]) h.

(** [n / d] rounded to the nearest integer, ties to even ([d > 0]). *)
Definition div_round_half_even (n d : Z) : Z :=
  let q := n / d in
  let r := n mod d in
  match Z.compare (2 * r) d with
  | Lt => q
  | Gt => q + 1
  | Eq => if Z.even q then q else q + 1
  end.

(** [round(v)] for an int, a bool or a finite float (a [PFloat] is a finite
    value: the infinities and NaN, on which [int(round(v))] raises, have no
    [pyval]); others have no [__round__]. *)
Definition py_round_value (v : pyval) : outcome Z :=
  match v with
  | PBool b => Val (if b then 1 else 0)
  | PInt n => Val n
  | PFloat m e =>
      Val (if Z.leb 0 e then m * 10 ^ e else div_round_half_even m (10 ^ (- e)))
  | _ => Exn (Exc TypeError)
  end.

(** [s.startswith(p)]. *)
Definition startswith (s p : string) : bool := String.prefix p s.

(** climate.py 155-157: the G-code of a target temperature. *)
Definition heater_gcode (heater_id : string) (t : Z) : string :=
  let nozzle := startswith heater_id "nozzle" in
  ((if nozzle then "M104" else "M140") ++ (if nozzle then " T" else " I")
   ++ String.substring (String.length heater_id - 1) 1 heater_id
   ++ " S" ++ py_str_int t)%string.

(** climate.py 147-164: [PNone] is the missing [temperature] argument;
    the optimistic update after the send is not reached. *)
Definition climate_set_temperature (heater_id : string) (temperature : pyval)
  (h : holder) : outcome unit :=
  match temperature with
  | PNone => Val tt
  | _ =>
      match py_round_value temperature with
      | Exn e => Exn e
      | Val t =>
          let _gcode := heater_gcode heater_id t in
          match holder_getattr_send_gcode_command h with
          | Raise e => Exn (Exc e)
          | Ok _ => Val tt
          end
      end
  end.

(** climate.py 105-115. *)
Definition climate_temperature (float_of_str : string -> outcome pyval)
  (key : string) (h : holder) : outcome (option pyval) :=
  match holder_getattr_data h with
  | Raise e => Exn (Exc e)
  | Ok d => Helpers.to_float_or_none float_of_str (PDict (map_to_list d)) key
  end.

End EntityPaths.

(** * Properties *)

(** ** The message codec *)
Module CodecFacts.
Import Codec Supervisor.

Ltac logged := eexists; split; [| reflexivity]; discriminate.

(** Every frame either merges its decoded object into the snapshot or
    leaves the snapshot as it is, and handling it never raises. *)
Lemma handle_message_effect (json_loads : string -> result pyval)
  (f : string) (d : gmap string pyval) :
  exists logs, logs <> [] /\
    handle_message json_loads f d =
    Ok (match decoded_object json_loads f with
        | Some u => dict_update d u
        | None => d
        end, logs).
Proof.
  unfold handle_message, decoded_object, handle_json, Const.MSG_TYPE_HEARTBEAT.
  destruct (is_ok_ack f); [logged |].
  destruct (json_loads f) as [v | e].
  - destruct v; simpl; try logged.
    destruct (dict_of kvs !! "ModeCode") as [[] |]; simpl; try logged.
    destruct (String.eqb s "heart_beat"); logged.
  - destruct e; logged.
Qed.

Lemma run_frames_cons (json_loads : string -> result pyval)
  (d : gmap string pyval) (f : string) (fs : list string) :
  run_frames json_loads d (f :: fs) =
  run_frames json_loads
    (match decoded_object json_loads f with
     | Some u => dict_update d u
     | None => d
     end) fs.
Proof.
  unfold run_frames at 1. simpl.
  destruct (handle_message_effect json_loads f d) as (logs & _ & ->).
  reflexivity.
Qed.

Lemma dict_update_lookup (d u : gmap string pyval) (k : string) :
  dict_update d u !! k = match u !! k with Some v => Some v | None => d !! k end.
Proof.
  unfold dict_update. destruct (u !! k) eqn:Hu.
  - by apply lookup_union_Some_l.
  - by rewrite lookup_union_r.
Qed.

End CodecFacts.

Module ScenarioC.
Import Codec ScenarioCData.

Example scenario_c :
  run_frames loads ∅ [frame1; frame2] =
  <["bedTemp0" := PInt 61]> (<["nozzleTemp" := PInt 210]> ∅).
Proof. vm_compute. reflexivity. Qed.

Example scenario_d_bare : run_frames loads {[ "x" := PInt 1 ]} ["ok"] = {[ "x" := PInt 1 ]}.
Proof. vm_compute. reflexivity. Qed.

Example scenario_d_quoted :
  run_frames loads {[ "x" := PInt 1 ]} [frame_ok_quoted] = {[ "x" := PInt 1 ]}.
Proof. vm_compute. reflexivity. Qed.

End ScenarioC.

(** C1 *)
(** Claim C1: after any sequence of frames the snapshot holds, for every
    key, the value of that key in the last decoded JSON object frame that
    has it (heartbeat echoes and the "ok" token excluded), and otherwise
    its initial value; a frame leaves the keys absent from its update
    untouched. *)
Theorem handle_message_merge (json_loads : string -> result pyval)
  (init : gmap string pyval) (frames : list string) :
  (forall k, Codec.run_frames json_loads init frames !! k =
             Codec.merged_lookup init (Codec.data_frames json_loads frames) k)
  /\ (forall f d k,
        (forall u, Codec.decoded_object json_loads f = Some u -> u !! k = None) ->
        Codec.run_frames json_loads d [f] !! k = d !! k).
Proof.
  split.
  - intros k. revert init. induction frames as [| f fs IH]; intros init.
    + reflexivity.
    + rewrite CodecFacts.run_frames_cons, IH.
      unfold Codec.data_frames. simpl.
      destruct (Codec.decoded_object json_loads f) as [u |] eqn:Hf; [| reflexivity].
      unfold Codec.merged_lookup. simpl.
      rewrite CodecFacts.dict_update_lookup. reflexivity.
  - intros f d k Hk. rewrite CodecFacts.run_frames_cons. simpl.
    destruct (Codec.decoded_object json_loads f) as [u |] eqn:Hf; [| reflexivity].
    rewrite CodecFacts.dict_update_lookup, (Hk u eq_refl). reflexivity.
Qed.

(** C9 *)
(** Claim C9: [handle_message] raises nothing on any string; the "ok"
    token (trimmed, any case), malformed text, JSON that is not an object
    and heartbeat echoes are logged and leave the snapshot unchanged; the
    receive loop keeps running and the connection flag is untouched. *)
Theorem handle_message_total (json_loads : string -> result pyval)
  (msg : string) (d : gmap string pyval) :
  (exists d' logs,
     Codec.handle_message json_loads msg d = Ok (d', logs) /\ logs <> [] /\
     ((Codec.is_ok_ack msg = true
       \/ (exists e, json_loads msg = Raise e)
       \/ (exists v, json_loads msg = Ok v /\ forall kvs, v <> PDict kvs)
       \/ (exists kvs, json_loads msg = Ok (PDict kvs) /\
                       dict_of kvs !! "ModeCode" = Some (PStr "heart_beat")))
      -> d' = d))
  /\ (forall s : Supervisor.sup,
        snd (Supervisor.receive_frame json_loads msg s) = true /\
        Supervisor.is_connected (fst (Supervisor.receive_frame json_loads msg s))
          = Supervisor.is_connected s /\
        Supervisor.threads (fst (Supervisor.receive_frame json_loads msg s))
          = Supervisor.threads s).
Proof.
  split.
  - destruct (CodecFacts.handle_message_effect json_loads msg d) as (logs & Hl & ->).
    do 2 eexists. split; [reflexivity | split; [exact Hl |]].
    intros Hcase.
    assert (Hnone : Codec.decoded_object json_loads msg = None).
    { unfold Codec.decoded_object.
      destruct (Codec.is_ok_ack msg) eqn:Hok; [reflexivity |].
      destruct Hcase as [H | [[e H] | [[v [H Hv]] | [kvs [H Hm]]]]].
      - discriminate.
      - rewrite H. reflexivity.
      - rewrite H. destruct v; try reflexivity. exfalso. exact (Hv kvs eq_refl).
      - rewrite H, Hm. reflexivity. }
    rewrite Hnone. reflexivity.
  - intros s. unfold Supervisor.receive_frame.
    destruct (CodecFacts.handle_message_effect json_loads msg
                (Supervisor.latest_raw_data s)) as (logs & _ & ->).
    repeat split.
Qed.

(** ** Sequential operations of the supervisor *)
Module SupervisorFacts.
Import Supervisor Contracts.

(** C3 *)
(** Claim C3 (as stated) fails: with the shutdown flag set and no
    connection, [connect_and_start_tasks] opens nothing and returns
    [False] instead of raising [ConnectionError]. *)
Lemma connect_contract_fails : ~ connect_contract.
Proof.
  intros H. specialize (H ConnTimeout shut_down_idle eq_refl).
  vm_compute in H. destruct H as [H _]. discriminate H.
Qed.

(** Claim C3 (amended): if already connected, [connect_and_start_tasks]
    returns [True] and changes nothing; otherwise, if the shutdown flag is
    set, it returns [False] and changes nothing; otherwise it releases the
    old resources and makes exactly one connection attempt with a 10 s
    timeout, schedules no reconnect, and either sets [connected] and
    starts both tasks (returning [True]) or leaves [connected] false and
    raises [ConnectionError]. *)
Theorem connect_and_start_tasks_spec (o : conn_outcome) (s : sup) :
  (is_connected s = true -> connect_and_start_tasks o s = (s, Ok true)) /\
  (is_connected s = false -> shutting_down s = true ->
     connect_and_start_tasks o s = (s, Ok false)) /\
  (is_connected s = false -> shutting_down s = false ->
     let (s', r) := connect_and_start_tasks o s in
     attempts s' = attempts s ++ [mk_attempt 10 false] /\
     threads s' = threads s /\
     (o = ConnOk -> r = Ok true /\ is_connected s' = true /\ ws_open s' = true /\
                    heartbeat_task s' = Some TRunning /\
                    receive_task s' = Some TRunning) /\
     (o <> ConnOk -> r = Raise ConnectionError /\ is_connected s' = false /\
                    ws_open s' = false /\ heartbeat_task s' = None /\
                    receive_task s' = None)).
Proof.
  destruct s as [c sd w hb rx hh lo lw ts att d].
  unfold connect_and_start_tasks; simpl.
  split; [intros -> ; reflexivity |].
  split; [intros -> -> ; reflexivity |].
  intros -> ->.
  destruct o; simpl; (split; [reflexivity | split; [reflexivity |]]);
    split; intros Ho; (try congruence); repeat split.
Qed.

Lemma connect_and_start_tasks_spec_witness :
  (is_connected shut_down_idle = false /\ shutting_down shut_down_idle = true) /\
  connect_and_start_tasks ConnOk shut_down_idle = (shut_down_idle, Ok false).
Proof.
  split; [split; reflexivity |].
  apply (proj1 (proj2 (connect_and_start_tasks_spec ConnOk shut_down_idle)));
    reflexivity.
Defined.

(** C6 *)
(** Claim C6: [clear()] is idempotent and ends with the shutdown flag set,
    no task, no socket and [connected] false, from any state. *)
Theorem clear_idempotent (s : sup) :
  clear (clear s) = clear s /\
  shutting_down (clear s) = true /\ heartbeat_task (clear s) = None /\
  receive_task (clear s) = None /\ ws_open (clear s) = false /\
  is_connected (clear s) = false.
Proof. destruct s; repeat split. Qed.

(** C8 *)
(** Claim C8 (as stated) fails: on a connected websocket with no [hass]
    attached and no shutdown under way, a send failure marks the connection
    lost but schedules no reconnect session (lines 234-238). *)
Lemma send_contract_fails : ~ send_contract.
Proof.
  intros H. specialize (H SendClosed connected_without_hass).
  vm_compute in H. destruct H as [_ H].
  destruct (H eq_refl eq_refl ltac:(discriminate)) as [_ Ht]. discriminate Ht.
Qed.

(** Claim C8 (amended): [send_message] never raises; when not connected
    (or without a socket) it only logs a warning; when any exception comes
    out of the send it marks the connection lost and schedules a reconnect
    session unless the shutdown flag is set or no [hass] is attached. *)
Theorem send_message_spec (o : send_outcome) (s : sup) :
  let '(s', r, logs) := send_message o s in
  r = Ok tt /\
  ((is_connected s = false \/ ws_open s = false) -> s' = s /\ logs = [Warning]) /\
  (is_connected s = true -> ws_open s = true -> o = SendOk -> s' = s) /\
  (is_connected s = true -> ws_open s = true -> o <> SendOk ->
     is_connected s' = false /\
     threads s' = (if shutting_down s || negb (has_hass s) then threads s
                   else threads s ++ [RStart]) /\
     latest_raw_data s' = latest_raw_data s).
Proof.
  destruct s as [c sd w hb rx hh lo lw ts att d].
  unfold send_message, handle_disconnect, schedule_reconnect.
  destruct c, w, o, sd, hh; cbn;
    repeat first [split | intro];
    try reflexivity; try congruence;
    match goal with
    | H : _ \/ _ |- _ => destruct H; discriminate
    end.
Qed.

Lemma send_message_spec_witness :
  is_connected connected_shutting = true /\ ws_open connected_shutting = true /\
  threads (fst (fst (send_message SendClosed connected_shutting))) = [].
Proof.
  split; [reflexivity | split; [reflexivity |]].
  pose proof (send_message_spec SendClosed connected_shutting) as H.
  destruct (send_message SendClosed connected_shutting) as [[s' r] logs] eqn:E.
  destruct H as (_ & _ & _ & H). simpl.
  destruct (H eq_refl eq_refl ltac:(discriminate)) as (_ & -> & _).
  reflexivity.
Defined.

End SupervisorFacts.

(** ** The polling adapter, the entities and the constants *)
Module GlueFacts.
Import Supervisor Coordinator Entities Contracts.

(** A poll always records success: [_async_update_data] never raises. *)
Lemma poll_records_success (c : coord) : last_update_success (fst (poll c)) = true.
Proof.
  unfold poll, async_update_data, get_latest_data, process_raw_data.
  case_bool_decide; reflexivity.
Qed.

(** C4 *)
(** Claim C4 (as stated) fails: polling a disconnected supervisor makes no
    connection attempt and reports success. *)
Lemma poll_contract_fails : ~ poll_contract.
Proof.
  intros H. specialize (H disconnected_coord eq_refl).
  vm_compute in H. destruct H as [H | H]; [exact (H eq_refl) | discriminate H].
Qed.

(** Claim C4 on the code: each update reads the supervisor's snapshot
    without checking or touching the connection (the websocket is left as
    it is, so no connection attempt), merges it into the coordinator's data
    (new values win, other keys kept), returns that data and never fails,
    so the poll always records success; the polling interval is 5 s. *)
Theorem async_update_data_spec (c : coord) :
  (let (c', r) := async_update_data c in
   websocket c' = websocket c /\ r = Ok (latest_data c') /\
   (forall k, latest_data c' !! k =
              match latest_raw_data (websocket c) !! k with
              | Some v => Some v
              | None => latest_data c !! k
              end)) /\
  last_update_success (fst (poll c)) = true /\
  update_interval_seconds = 5%nat.
Proof.
  unfold poll, async_update_data, get_latest_data, process_raw_data.
  case_bool_decide as Hraw; simpl.
  - repeat split. intros k. rewrite Hraw, lookup_empty. reflexivity.
  - repeat split. intros k. apply CodecFacts.dict_update_lookup.
Qed.

(** C10 *)
(** Claim C10 fails on the code: the sensor, switch, climate and button
    entities read [self.coordinator.websocket.is_connected] and raise
    [AttributeError] (the stored entry dict has no [websocket] attribute,
    and [MyWebSocket] has no [is_connected]), while the fan entity keeps
    the default availability, which is true after every poll. *)
Theorem entities_available_code (c : coord) :
  entity_available PSensor (wired_holder PSensor c) = Raise (AttributeError "websocket") /\
  entity_available PSwitch (wired_holder PSwitch c) = Raise (AttributeError "websocket") /\
  entity_available PClimate (wired_holder PClimate c) = Raise (AttributeError "websocket") /\
  entity_available PButton (wired_holder PButton c) = Raise (AttributeError "websocket") /\
  k1_available (HCoordinator c) = Raise (AttributeError "is_connected") /\
  entity_available PFan (wired_holder PFan (fst (poll c))) = Ok true.
Proof.
  repeat split.
  unfold entity_available, wired_holder, fan_available, holder_last_update_success.
  f_equal. apply poll_records_success.
Qed.

Example fan_available_while_disconnected :
  is_connected (websocket disconnected_coord) = false /\
  entity_available PFan (wired_holder PFan (fst (poll disconnected_coord))) = Ok true.
Proof. split; reflexivity. Qed.

(** C2 *)
(** Claim C2 fails on the code: [websocket.py] imports [RECONNECT_INTERVAL]
    (and [MSG_TYPE_MSG]) from [const.py], which defines neither, so the
    module cannot be imported and no backoff value exists. *)
Theorem websocket_import_fails :
  Const.from_import Const.const_names Const.websocket_imports
    = Raise (ImportError "MSG_TYPE_MSG") /\
  Const.from_import Const.const_names ["RECONNECT_INTERVAL"]
    = Raise (ImportError "RECONNECT_INTERVAL").
Proof. split; vm_compute; reflexivity. Qed.

End GlueFacts.

(** ** The interleaved supervisor: the reconnect lock *)
Module LockFacts.
Import Supervisor.

Definition lock_inv (s : sup) : Prop :=
  forall i p, threads s !! i = Some p -> in_body p = true -> lock_owner s = Some i.

Definition body_of (k : ctx) : bool :=
  match k with KConnect => true | KClear => false end.

Lemma after_cleanup_frame (k : ctx) (s : sup) :
  threads (after_cleanup k s).1 = threads s /\
  lock_owner (after_cleanup k s).1 = lock_owner s /\
  in_body (after_cleanup k s).2 = body_of k.
Proof. destruct k; repeat split. Qed.

Lemma cleanup_ws_frame (k : ctx) (s : sup) :
  threads (cleanup_ws k s).1 = threads s /\
  lock_owner (cleanup_ws k s).1 = lock_owner s /\
  in_body (cleanup_ws k s).2 = body_of k.
Proof.
  unfold cleanup_ws. destruct (ws_open s); [destruct k; repeat split |].
  apply after_cleanup_frame.
Qed.

Lemma cleanup_rx_frame (k : ctx) (s : sup) :
  threads (cleanup_rx k s).1 = threads s /\
  lock_owner (cleanup_rx k s).1 = lock_owner s /\
  in_body (cleanup_rx k s).2 = body_of k.
Proof.
  unfold cleanup_rx. destruct (receive_task s) as [[] |];
    try (destruct k; repeat split; fail);
    [exact (cleanup_ws_frame k (set_rx None s)) | exact (cleanup_ws_frame k s)].
Qed.

Lemma cleanup_hb_frame (k : ctx) (s : sup) :
  threads (cleanup_hb k s).1 = threads s /\
  lock_owner (cleanup_hb k s).1 = lock_owner s /\
  in_body (cleanup_hb k s).2 = body_of k.
Proof.
  unfold cleanup_hb. destruct (heartbeat_task s) as [[] |];
    try (destruct k; repeat split; fail);
    [exact (cleanup_rx_frame k (set_hb None s)) | exact (cleanup_rx_frame k s)].
Qed.

(** From the loop head the session either leaves, releasing the lock, or
    stays in its retry body, keeping it. *)
Definition leaves_or_keeps (s : sup) (r : sup * pc) : Prop :=
  threads r.1 = threads s /\
  ((r.2 = Done /\ lock_owner r.1 = None) \/
   (in_body r.2 = true /\ lock_owner r.1 = lock_owner s)).

Lemma connect_call_frame (s : sup) : leaves_or_keeps s (connect_call s).
Proof.
  unfold connect_call, leaves_or_keeps.
  destruct (is_connected s); [split; [reflexivity | left; split; reflexivity] |].
  destruct (shutting_down s); [split; [reflexivity | right; split; reflexivity] |].
  destruct (cleanup_hb_frame KConnect s) as (? & ? & ?).
  split; [assumption | right; split; assumption].
Qed.

Lemma loop_head_frame (s : sup) : leaves_or_keeps s (loop_head s).
Proof.
  unfold loop_head.
  destruct (negb (is_connected s) && negb (shutting_down s));
    [apply connect_call_frame | split; [reflexivity | left; split; reflexivity]].
Qed.

Lemma after_acquire_frame (s : sup) : leaves_or_keeps s (after_acquire s).
Proof.
  unfold after_acquire. destruct (is_connected s);
    [split; [reflexivity | left; split; reflexivity] | apply loop_head_frame].
Qed.

(** What one run of coroutine [i] does to the threads and the lock. *)
Definition exec_post (i : nat) (s s' : sup) (p' : pc) : Prop :=
  threads s' = threads s /\
  (in_body p' = true -> lock_owner s' = Some i) /\
  (forall j, j <> i -> lock_owner s = Some j -> lock_owner s' = Some j).

(** Taking the free lock and continuing at line 252. *)
Lemma acquire_post (i : nat) (w : list nat) (s : sup) :
  lock_owner s = None ->
  exec_post i s (after_acquire (set_lock (Some i) w s)).1
                (after_acquire (set_lock (Some i) w s)).2.
Proof.
  intros Hfree.
  destruct (after_acquire_frame (set_lock (Some i) w s)) as [Ht [[Hd Hl] | [Hb Hl]]];
    (split; [exact Ht | split]).
  - rewrite Hd. discriminate.
  - intros j _ Hj. congruence.
  - intros _. exact Hl.
  - intros j _ Hj. congruence.
Qed.

(** A run that keeps the lock as it is. *)
Lemma keep_post (i : nat) (s s' : sup) (p' : pc) :
  threads s' = threads s -> lock_owner s' = lock_owner s ->
  (in_body p' = true -> lock_owner s = Some i) ->
  exec_post i s s' p'.
Proof.
  intros Ht Hl Hb. split; [exact Ht | split].
  - intros H. rewrite Hl. exact (Hb H).
  - intros j _ Hj. rewrite Hl. exact Hj.
Qed.

Lemma exec_frame (i : nat) (o : conn_outcome) (p : pc) (s s' : sup) (p' : pc) :
  lock_inv s -> threads s !! i = Some p -> exec i o p s = Some (s', p') ->
  exec_post i s s' p'.
Proof.
  intros Hinv Hi Hex.
  assert (Hown : in_body p = true -> lock_owner s = Some i)
    by (intros Hb; exact (Hinv i p Hi Hb)).
  destruct p as [ | | k | k | k | | | | ]; simpl in Hex.
  - (* RStart *)
    destruct (shutting_down s).
    { injection Hex as <- <-. apply keep_post; intros; simpl in *; congruence. }
    revert Hex. destruct (lock_owner s) eqn:Hl.
    + intros Hex. injection Hex as <- <-.
      apply keep_post; intros; simpl in *; congruence.
    + destruct (lock_waiters s) eqn:Hw; intros Hex.
      * injection Hex as Hex. pose proof (acquire_post i [] s Hl) as P.
        rewrite Hex in P. exact P.
      * injection Hex as <- <-. apply keep_post; intros; simpl in *; congruence.
  - (* RWaitLock *)
    revert Hex. destruct (lock_owner s) eqn:Hl; [discriminate |].
    destruct (lock_waiters s) as [| j rest]; [discriminate |].
    case_decide; [| discriminate]. intros Hex. injection Hex as Hex.
    subst j. pose proof (acquire_post i rest s Hl) as P.
    rewrite Hex in P. exact P.
  - (* CleanHB *)
    injection Hex as Hex.
    destruct (cleanup_rx_frame k (set_hb None s)) as (Ht & Hl & Hb).
    rewrite Hex in Ht, Hl, Hb. simpl in Ht, Hl, Hb.
    apply keep_post; [exact Ht | exact Hl |].
    rewrite Hb. intros Hk. apply Hown. destruct k; [reflexivity | discriminate].
  - (* CleanRX *)
    injection Hex as Hex.
    destruct (cleanup_ws_frame k (set_rx None s)) as (Ht & Hl & Hb).
    rewrite Hex in Ht, Hl, Hb. simpl in Ht, Hl, Hb.
    apply keep_post; [exact Ht | exact Hl |].
    rewrite Hb. intros Hk. apply Hown. destruct k; [reflexivity | discriminate].
  - (* CleanWS *)
    injection Hex as Hex.
    destruct (after_cleanup_frame k (set_ws false s)) as (Ht & Hl & Hb).
    rewrite Hex in Ht, Hl, Hb. simpl in Ht, Hl, Hb.
    apply keep_post; [exact Ht | exact Hl |].
    rewrite Hb. intros Hk. apply Hown. destruct k; [reflexivity | discriminate].
  - (* Connecting *)
    specialize (Hown eq_refl).
    destruct o; injection Hex as <- <-;
      (split; [reflexivity | split]);
      try (intros H; discriminate H);
      try (intros _; exact Hown);
      intros j Hj Hj'; congruence.
  - (* RSleep *)
    specialize (Hown eq_refl).
    injection Hex as Hex.
    destruct (loop_head_frame s) as [Ht [[Hd Hl] | [Hb Hl]]];
      rewrite Hex in *; simpl in *; (split; [exact Ht | split]).
    + rewrite Hd. discriminate.
    + intros j Hj Hj'. congruence.
    + intros _. congruence.
    + intros j _ Hj'. congruence.
  - (* ClearStart *)
    injection Hex as Hex.
    destruct (cleanup_hb_frame KClear (set_shutting true s)) as (Ht & Hl & Hb).
    rewrite Hex in Ht, Hl, Hb. simpl in Ht, Hl, Hb.
    apply keep_post; [exact Ht | exact Hl |]. rewrite Hb. discriminate.
  - discriminate.
Qed.

Lemma handle_disconnect_frame (s : sup) :
  lock_owner (handle_disconnect s) = lock_owner s /\
  (threads (handle_disconnect s) = threads s \/
   threads (handle_disconnect s) = threads s ++ [RStart]).
Proof.
  unfold handle_disconnect, schedule_reconnect.
  destruct (is_connected s); simpl; [| auto].
  destruct (shutting_down s), (has_hass s); simpl; auto.
Qed.

Lemma env_frame (e : env_event) (s s' : sup) :
  env_step e s = Some s' ->
  lock_owner s' = lock_owner s /\
  (threads s' = threads s \/
   exists q, threads s' = threads s ++ [q] /\ in_body q = false).
Proof.
  intros H. destruct e; simpl in H.
  - destruct (heartbeat_task s) as [[] |]; try discriminate.
    injection H as <-. destruct (handle_disconnect_frame s) as [Hl [Ht | Ht]];
      split; auto. right. exists RStart. auto.
  - destruct (receive_task s) as [[] |]; try discriminate.
    injection H as <-.
    destruct (handle_disconnect_frame (set_rx (Some TDone) s)) as [Hl [Ht | Ht]];
      split; auto. right. exists RStart. auto.
  - destruct (heartbeat_task s) as [[] |]; try discriminate.
    destruct (negb (is_connected s) || shutting_down s); [| discriminate].
    injection H as <-. auto.
  - destruct (receive_task s) as [[] |]; try discriminate.
    destruct (negb (is_connected s) || shutting_down s); [| discriminate].
    injection H as <-. auto.
  - injection H as <-. split; [reflexivity |]. right. exists ClearStart. auto.
Qed.

Lemma step_lock_inv (s s' : sup) : lock_inv s -> step s s' -> lock_inv s'.
Proof.
  intros Hinv Hstep. destruct Hstep as [i o s s'' Hrun | e s s'' Henv].
  - unfold run_thread in Hrun.
    destruct (threads s !! i) as [p |] eqn:Hi; [| discriminate].
    destruct (exec i o p s) as [[s' p'] |] eqn:Hex; [| discriminate].
    injection Hrun as <-.
    destruct (exec_frame i o p s s' p' Hinv Hi Hex) as (Ht & Hb & Hj).
    intros j q Hq Hbq. simpl in Hq |- *.
    destruct (decide (j = i)) as [-> | Hne].
    + rewrite list_lookup_insert_eq in Hq.
      * injection Hq as <-. exact (Hb Hbq).
      * rewrite Ht. eapply lookup_lt_Some. exact Hi.
    + rewrite list_lookup_insert_ne in Hq by congruence.
      rewrite Ht in Hq. apply Hj; [exact Hne | exact (Hinv j q Hq Hbq)].
  - destruct (env_frame e s s'' Henv) as [Hl [Ht | (q0 & Ht & Hq0)]];
      intros j q Hq Hbq; rewrite Hl.
    + rewrite Ht in Hq. exact (Hinv j q Hq Hbq).
    + rewrite Ht, lookup_app in Hq.
      destruct (threads s !! j) as [q1 |] eqn:Hj.
      * injection Hq as <-. exact (Hinv j q1 Hj Hbq).
      * destruct (j - length (threads s)) as [| n]; simpl in Hq.
        -- injection Hq as <-. congruence.
        -- destruct n; discriminate.
Qed.

Lemma quiescent_lock_inv (s : sup) : quiescent s -> lock_inv s.
Proof.
  intros (Ht & _ & _) i p Hi. rewrite Ht in Hi. discriminate.
Qed.

Lemma reachable_lock_inv (s0 s : sup) :
  quiescent s0 -> rtc step s0 s -> lock_inv s.
Proof.
  intros Hq Hr. pose proof (quiescent_lock_inv s0 Hq) as H0. clear Hq.
  induction Hr as [x | x y z Hxy Hyz IH]; [exact H0 |].
  apply IH. exact (step_lock_inv x y H0 Hxy).
Qed.

Lemma run_script_rtc (s : sup) (acts : list action) (s' : sup) :
  run_script s acts = Some s' -> rtc step s s'.
Proof.
  revert s. induction acts as [| a rest IH]; intros s H; simpl in H.
  - injection H as <-. reflexivity.
  - destruct (run_action a s) as [s1 |] eqn:Ha; [| discriminate].
    eapply rtc_l; [| exact (IH s1 H)].
    destruct a; simpl in Ha; [eapply step_thread | eapply step_env]; exact Ha.
Qed.

End LockFacts.

Module SessionFacts.
Import Supervisor Contracts LockFacts.

(** C5 *)
(** Claim C5: in every state reached from one without sessions, at most
    one reconnect session is inside its retry body, whatever the
    interleaving of the heartbeat task, the receive task, [clear()] and the
    sessions; and a session that takes the lock while connected (or sees
    the shutdown flag) ends without a connection attempt. *)
Theorem reconnect_lock_exclusive (s0 s : sup) :
  quiescent s0 -> rtc step s0 s ->
  (forall i j pi pj, threads s !! i = Some pi -> threads s !! j = Some pj ->
     in_body pi = true -> in_body pj = true -> i = j) /\
  (forall i o p s', threads s !! i = Some p -> (p = RStart \/ p = RWaitLock) ->
     is_connected s = true -> run_thread i o s = Some s' ->
     (threads s' !! i = Some Done \/ threads s' !! i = Some RWaitLock) /\
     attempts s' = attempts s).
Proof.
  intros Hq Hr. split.
  - intros i j pi pj Hi Hj Hbi Hbj.
    pose proof (reachable_lock_inv s0 s Hq Hr) as Hinv.
    pose proof (Hinv i pi Hi Hbi) as Ei. pose proof (Hinv j pj Hj Hbj) as Ej.
    congruence.
  - intros i o p s' Hi Hp Hc Hrun.
    assert (Hlt : i < length (threads s)) by (eapply lookup_lt_Some; exact Hi).
    destruct s as [c sd w hb rx hh lo lw ts ats d]; simpl in *; subst c.
    unfold run_thread in Hrun; simpl in Hrun; rewrite Hi in Hrun.
    destruct Hp as [-> | ->]; simpl in Hrun.
    + destruct sd; simpl in Hrun.
      * injection Hrun as <-; simpl.
        rewrite list_lookup_insert_eq by exact Hlt; auto.
      * destruct lo; [| destruct lw]; simpl in Hrun;
          injection Hrun as <-; simpl;
          rewrite list_lookup_insert_eq by exact Hlt; auto.
    + destruct lo; [discriminate |].
      destruct lw as [| j rest]; [discriminate |].
      simpl in Hrun. case_decide; [| discriminate].
      injection Hrun as <-; simpl.
      rewrite list_lookup_insert_eq by exact Hlt; auto.
Qed.

Lemma reconnect_lock_exclusive_witness :
  exists s, run_script connected_idle one_session = Some s /\
    threads s !! 0 = Some (CleanHB KConnect) /\
    (forall j pj, threads s !! j = Some pj -> in_body pj = true -> j = 0).
Proof.
  exists (default connected_idle (run_script connected_idle one_session)).
  assert (Hs : run_script connected_idle one_session =
               Some (default connected_idle (run_script connected_idle one_session)))
    by (vm_compute; reflexivity).
  assert (Ht : threads (default connected_idle (run_script connected_idle one_session)) !! 0
               = Some (CleanHB KConnect)) by (vm_compute; reflexivity).
  split; [exact Hs |]. split; [exact Ht |].
  intros j pj Hj Hb.
  refine (proj1 (reconnect_lock_exclusive connected_idle _ _ _) j 0 pj
                (CleanHB KConnect) Hj _ Hb _).
  - split; [reflexivity | split; reflexivity].
  - apply (run_script_rtc connected_idle one_session). exact Hs.
  - exact Ht.
  - reflexivity.
Defined.

(** C7 *)
(** Claim C7 fails on the code: a session that passed the shutdown test of
    [connect_and_start_tasks] (line 46) and is suspended in its cleanup
    (line 93) goes on to [websockets.connect] (line 57) after [clear()] has
    set the shutdown flag. *)
Theorem shutdown_race_attempt : ~ no_attempt_after_shutdown.
Proof.
  intros H.
  set (s1 := default connected_idle (run_script connected_idle race_to_clear)).
  set (s2 := default connected_idle (run_script s1 race_after_clear)).
  assert (H1 : rtc step connected_idle s1).
  { apply (run_script_rtc connected_idle race_to_clear). vm_compute. reflexivity. }
  assert (H2 : rtc step s1 s2).
  { apply (run_script_rtc s1 race_after_clear). vm_compute. reflexivity. }
  assert (Hq : quiescent connected_idle)
    by (split; [reflexivity | split; reflexivity]).
  assert (Hsd : shutting_down s1 = true) by (vm_compute; reflexivity).
  pose proof (H _ _ _ Hq H1 Hsd H2) as E.
  vm_compute in E. discriminate E.
Qed.

End SessionFacts.

(** ** helpers.py *)
Module HelpersFacts.
Import Helpers.
Local Open Scope Z_scope.

Lemma string_app_cons (c : Ascii.ascii) (x y : string) :
  (String c x ++ y)%string = String c (x ++ y).
Proof. reflexivity. Qed.

Lemma string_app_nil_l (y : string) : (EmptyString ++ y)%string = y.
Proof. reflexivity. Qed.

Lemma list_ascii_app (x y : string) :
  String.list_ascii_of_string (x ++ y) =
  String.list_ascii_of_string x ++ String.list_ascii_of_string y.
Proof.
  induction x as [| c x IH]; [reflexivity |].
  rewrite string_app_cons. simpl. by rewrite IH.
Qed.

Lemma string_app_nil_r (x : string) : (x ++ EmptyString)%string = x.
Proof.
  induction x as [| c x IH]; [reflexivity |].
  rewrite string_app_cons, IH. reflexivity.
Qed.

Lemma py_split_no_sep (sep : Ascii.ascii) (x : string) :
  ~ In sep (String.list_ascii_of_string x) -> py_split sep x = [x].
Proof.
  induction x as [| c x IH]; intros Hx; [reflexivity |].
  simpl in Hx. simpl. rewrite IH by tauto.
  destruct (Ascii.eqb_spec c sep); [subst; tauto | reflexivity].
Qed.

Lemma py_split_app_sep (sep : Ascii.ascii) (x y : string) :
  ~ In sep (String.list_ascii_of_string x) ->
  py_split sep (x ++ String sep y) = x :: py_split sep y.
Proof.
  induction x as [| c x IH]; intros Hx.
  - rewrite string_app_nil_l. simpl. by rewrite Ascii.eqb_refl.
  - rewrite string_app_cons. simpl in Hx. simpl. rewrite IH by tauto.
    destruct (Ascii.eqb_spec c sep); [subst; tauto | reflexivity].
Qed.

Lemma colon_not_semicolon : ch_colon <> ch_semicolon.
Proof. discriminate. Qed.

Lemma no_sep_field (sep c : Ascii.ascii) (a b : string) :
  c <> sep ->
  ~ In sep (String.list_ascii_of_string a) ->
  ~ In sep (String.list_ascii_of_string b) ->
  ~ In sep (String.list_ascii_of_string (a ++ String c b)).
Proof.
  intros Hc Ha Hb. rewrite list_ascii_app. simpl.
  rewrite in_app_iff. simpl. intros [H | [H | H]]; auto.
Qed.

(** The py_int conversions raise only [ValueError] and [TypeError]. *)
Lemma parse_int_exn (s : string) (e : err) : parse_int s = Exn e -> e = ValueError.
Proof.
  unfold parse_int. intros H. repeat case_match; try discriminate.
  all: injection H; auto.
Qed.

Lemma py_int_exn (v : pyval) (e : err) :
  py_int v = Exn e -> e = ValueError \/ e = Exc TypeError.
Proof.
  destruct v; simpl; try discriminate; intros H;
    first [left; exact (parse_int_exn _ _ H) | injection H; auto].
Qed.

Lemma pyval_of_b64_exn (x : b64) (e : err) :
  pyval_of_b64 x = Exn e -> e = OverflowError \/ e = ValueError.
Proof.
  destruct x as [b | b | | b m ex]; simpl; try discriminate;
    try (intros H; injection H; auto; fail).
  destruct (Z.leb 0 ex); discriminate.
Qed.

End HelpersFacts.

(** ** fan.py *)
Module FanFacts.
Import Fan HelpersFacts.
Local Open Scope Z_scope.

(** [round(p / 100 * 255)] for every percentage of 0..100, as computed in
    binary64: an integer of 0..255 nearest to [255 p / 100], ties to even. *)
Lemma speed_table :
  forallb (fun p =>
    match speed_of_percentage p with
    | Val n => (0 <=? n) && (n <=? 255)
               && (2 * Z.abs (255 * p - 100 * n) <=? 100)
               && (negb (2 * Z.abs (255 * p - 100 * n) =? 100) || Z.even n)
    | Exn _ => false
    end) (map Z.of_nat (seq 0 101)) = true.
Proof. vm_compute. reflexivity. Qed.

Lemma speed_nearest (p : Z) :
  0 <= p <= 100 ->
  exists n, speed_of_percentage p = Val n /\ 0 <= n <= 255 /\
    2 * Z.abs (255 * p - 100 * n) <= 100 /\
    (2 * Z.abs (255 * p - 100 * n) = 100 -> Z.even n = true).
Proof.
  intros Hp.
  pose proof (proj1 (forallb_forall _ _) speed_table p) as H.
  assert (Hin : In p (map Z.of_nat (seq 0 101))).
  { apply in_map_iff. exists (Z.to_nat p). split; [lia |].
    apply in_seq. lia. }
  specialize (H Hin). cbv beta in H.
  destruct (speed_of_percentage p) as [n | e]; [| discriminate].
  exists n. split; [reflexivity |].
  apply andb_prop in H as [H H4]. apply andb_prop in H as [H H3].
  apply andb_prop in H as [H1 H2].
  apply Z.leb_le in H1, H2, H3.
  split; [lia | split; [exact H3 |]].
  intros Heq. apply Z.eqb_eq in Heq. rewrite Heq in H4. exact H4.
Qed.

End FanFacts.

(** ** Extra properties: helpers.py *)
Module HelpersExtra.
Import Helpers HelpersFacts.
Local Open Scope Z_scope.

(** [get_hw_sw_versions] reads the hardware and software versions back
    out of a [modelVersion] string [f0;f1;a:hw;b:sw] (optionally followed
    by more [;]-fields) whose fields hold no further separators. *)
Theorem get_hw_sw_versions_roundtrip (kvs : list (string * pyval))
  (f0 f1 a hw b sw tail : string) :
  dict_of kvs !! "modelVersion" =
    Some (PStr (f0 ++ String ch_semicolon (f1 ++ String ch_semicolon
      ((a ++ String ch_colon hw) ++ String ch_semicolon
       ((b ++ String ch_colon sw) ++ tail))))) ->
  (tail = EmptyString \/ exists t, tail = String ch_semicolon t) ->
  Forall (fun x => ~ In ch_semicolon (String.list_ascii_of_string x))
    [f0; f1; a; hw; b; sw] ->
  Forall (fun x => ~ In ch_colon (String.list_ascii_of_string x)) [a; hw; b; sw] ->
  get_hw_sw_versions (PDict kvs) = (PStr hw, PStr sw).
Proof.
  intros Hmv Htail Hsemi Hcolon.
  repeat match goal with H : Forall _ (_ :: _) |- _ => inversion_clear H end.
  assert (Hf2 : ~ In ch_semicolon (String.list_ascii_of_string (a ++ String ch_colon hw)))
    by (apply no_sep_field; auto using colon_not_semicolon).
  assert (Hf3 : ~ In ch_semicolon (String.list_ascii_of_string (b ++ String ch_colon sw)))
    by (apply no_sep_field; auto using colon_not_semicolon).
  assert (Hsplit : exists ps, py_split ch_semicolon
      (f0 ++ String ch_semicolon (f1 ++ String ch_semicolon
        ((a ++ String ch_colon hw) ++ String ch_semicolon
         ((b ++ String ch_colon sw) ++ tail))))
      = f0 :: f1 :: (a ++ String ch_colon hw)%string :: (b ++ String ch_colon sw)%string :: ps).
  { rewrite (py_split_app_sep _ f0), (py_split_app_sep _ f1),
      (py_split_app_sep _ (a ++ String ch_colon hw)) by assumption.
    destruct Htail as [-> | [t ->]].
    - exists []. rewrite string_app_nil_r, py_split_no_sep by assumption.
      reflexivity.
    - eexists. rewrite py_split_app_sep by assumption. reflexivity. }
  destruct Hsplit as [ps Hps].
  unfold get_hw_sw_versions, version_field, dict_get. rewrite Hmv. simpl.
  rewrite Hps. unfold py_index. simpl.
  rewrite !py_split_app_sep, !py_split_no_sep by assumption.
  reflexivity.
Qed.

Lemma get_hw_sw_versions_roundtrip_witness :
  get_hw_sw_versions (PDict [("modelVersion", PStr "K1;x;HW:1.2;SW:3.4")])
  = (PStr "1.2", PStr "3.4").
Proof.
  apply (get_hw_sw_versions_roundtrip _ "K1" "x" "HW" "1.2" "SW" "3.4" EmptyString).
  - vm_compute. reflexivity.
  - left. reflexivity.
  - repeat constructor; vm_compute; intuition discriminate.
  - repeat constructor; vm_compute; intuition discriminate.
Defined.

(** The bare [except] of [get_hw_sw_versions] gives [(None, None)] when
    [data] is not a dict, when [modelVersion] is missing or not a string,
    when it has fewer than four [;]-fields, and when its third field has
    no [:]. *)
Theorem get_hw_sw_versions_fallback :
  (forall data, (forall kvs, data <> PDict kvs) ->
     get_hw_sw_versions data = (PNone, PNone)) /\
  (forall kvs, (forall mv, dict_get (dict_of kvs) "modelVersion" <> PStr mv) ->
     get_hw_sw_versions (PDict kvs) = (PNone, PNone)) /\
  (forall kvs mv, dict_get (dict_of kvs) "modelVersion" = PStr mv ->
     (length (py_split ch_semicolon mv) <= 3)%nat ->
     get_hw_sw_versions (PDict kvs) = (PNone, PNone)) /\
  (forall kvs mv f, dict_get (dict_of kvs) "modelVersion" = PStr mv ->
     py_split ch_semicolon mv !! 2%nat = Some f ->
     ~ In ch_colon (String.list_ascii_of_string f) ->
     get_hw_sw_versions (PDict kvs) = (PNone, PNone)).
Proof.
  split; [| split; [| split]].
  - intros data Hd. destruct data; try reflexivity. exfalso. exact (Hd kvs eq_refl).
  - intros kvs Hmv. unfold get_hw_sw_versions, version_field.
    destruct (dict_get (dict_of kvs) "modelVersion"); try reflexivity.
    exfalso. exact (Hmv s eq_refl).
  - intros kvs mv Hmv Hlen.
    assert (H3 : py_index (py_split ch_semicolon mv) 3%nat = Exn IndexError).
    { unfold py_index. rewrite lookup_ge_None_2 by lia. reflexivity. }
    unfold get_hw_sw_versions, version_field. rewrite Hmv, H3.
    destruct (py_index (py_split ch_semicolon mv) 2%nat); [| reflexivity].
    destruct (py_index (py_split ch_colon a) 1%nat); reflexivity.
  - intros kvs mv f Hmv Hf Hc.
    assert (H2 : py_index (py_split ch_semicolon mv) 2%nat = Val f)
      by (unfold py_index; rewrite Hf; reflexivity).
    assert (H1 : py_index (py_split ch_colon f) 1%nat = Exn IndexError)
      by (rewrite py_split_no_sep by exact Hc; reflexivity).
    unfold get_hw_sw_versions, version_field. rewrite Hmv, H2, H1. reflexivity.
Qed.

(** [to_float_or_none] gives [None] for a non-dict, a missing key, and a
    [None], list or dict value; a bool becomes [0.0] or [1.0] and a float
    is returned as it is. *)
Theorem to_float_or_none_none_cases (float_of_str : string -> outcome pyval) :
  (forall data key, (forall kvs, data <> PDict kvs) ->
     to_float_or_none float_of_str data key = Val None) /\
  (forall kvs key, dict_of kvs !! key = None ->
     to_float_or_none float_of_str (PDict kvs) key = Val None) /\
  (forall kvs key, match dict_get (dict_of kvs) key with
                   | PNone | PList _ | PDict _ => True | _ => False end ->
     to_float_or_none float_of_str (PDict kvs) key = Val None) /\
  (forall kvs key b, dict_get (dict_of kvs) key = PBool b ->
     to_float_or_none float_of_str (PDict kvs) key
     = Val (Some (PFloat (if b then 1 else 0) 0))) /\
  (forall kvs key m e, dict_get (dict_of kvs) key = PFloat m e ->
     to_float_or_none float_of_str (PDict kvs) key = Val (Some (PFloat m e))).
Proof.
  split; [| split; [| split; [| split]]].
  - intros data key Hd. destruct data; try reflexivity. exfalso. exact (Hd kvs eq_refl).
  - intros kvs key Hk. unfold to_float_or_none, dict_get. rewrite Hk. reflexivity.
  - intros kvs key Hv. unfold to_float_or_none.
    destruct (dict_get (dict_of kvs) key); try contradiction; reflexivity.
  - intros kvs key b Hv. unfold to_float_or_none. rewrite Hv. reflexivity.
  - intros kvs key m e Hv. unfold to_float_or_none. rewrite Hv. reflexivity.
Qed.

(** When [float(s)] on a string only ever raises [ValueError],
    [to_float_or_none] raises nothing but [OverflowError], and that only
    for an int value too large for a double. *)
Theorem to_float_or_none_raises (float_of_str : string -> outcome pyval)
  (Hstr : forall s, (exists f, float_of_str s = Val f) \/ float_of_str s = Exn ValueError)
  (data : pyval) (key : string) (e : err) :
  to_float_or_none float_of_str data key = Exn e ->
  e = OverflowError /\
  exists kvs n, data = PDict kvs /\ dict_get (dict_of kvs) key = PInt n /\
                pyval_of_b64 (float_of_int n) = Exn OverflowError.
Proof.
  unfold to_float_or_none, py_float.
  destruct data as [| | | | | | kvs]; try discriminate.
  destruct (dict_get (dict_of kvs) key) as [| b | n | m x | s | xs | kvs'] eqn:Hv;
    cbv beta iota; try discriminate.
  - destruct (pyval_of_b64 (float_of_int n)) as [f | e'] eqn:Hf; [discriminate |].
    destruct (pyval_of_b64_exn _ _ Hf) as [-> | ->]; [| discriminate].
    intros H. injection H as <-. split; [reflexivity |].
    exists kvs, n. auto.
  - destruct (Hstr s) as [[f Hf] | Hf]; rewrite Hf; discriminate.
Qed.

Lemma to_float_or_none_raises_witness :
  (forall s, (exists f, (fun _ : string => Exn ValueError : outcome pyval) s = Val f)
             \/ (fun _ : string => Exn ValueError : outcome pyval) s = Exn ValueError) /\
  OverflowError = OverflowError /\
  exists kvs n, PDict [("t", PInt (2 ^ 1024))] = PDict kvs /\
    dict_get (dict_of kvs) "t" = PInt n /\
    pyval_of_b64 (float_of_int n) = Exn OverflowError.
Proof.
  assert (Hs : forall s, (exists f, (fun _ : string => Exn ValueError : outcome pyval) s = Val f)
             \/ (fun _ : string => Exn ValueError : outcome pyval) s = Exn ValueError)
    by (intros; right; reflexivity).
  split; [exact Hs |].
  apply (to_float_or_none_raises _ Hs (PDict [("t", PInt (2 ^ 1024))]) "t" OverflowError).
  vm_compute. reflexivity.
Defined.

End HelpersExtra.

(** ** Extra properties: fan.py *)
Module FanExtra.
Import Supervisor Fan HelpersFacts FanFacts.
Local Open Scope Z_scope.

Ltac int_total :=
  match goal with
  | |- context [py_int ?v] =>
      let He := fresh "He" in
      destruct (py_int v) as [?n | ?e] eqn:He;
      [| destruct (py_int_exn _ _ He) as [-> | ->]]
  end.

Lemma is_on_total (f : k1fan) (data : option (gmap string pyval)) :
  exists r, is_on f data = Val r.
Proof.
  unfold is_on. destruct data as [d |]; [| eexists; reflexivity].
  destruct (data_truthy (Some d)); [| eexists; reflexivity].
  destruct (dict_get d (toggle_key f)); cbv beta iota;
    try (eexists; reflexivity); int_total; eexists; reflexivity.
Qed.

Lemma percentage_total (f : k1fan) (data : option (gmap string pyval)) :
  exists r, percentage f data = Val r /\ forall n, r = Some n -> 0 <= n <= 100.
Proof.
  destruct (is_on_total f data) as [r Hr]. unfold percentage. rewrite Hr.
  destruct r as [[|] |];
    [| eexists; split; [reflexivity | intros n Hn; injection Hn as <-; lia]
     | eexists; split; [reflexivity | discriminate]].
  destruct data as [d |]; [| eexists; split; [reflexivity | discriminate]].
  destruct (data_truthy (Some d)); [| eexists; split; [reflexivity | discriminate]].
  destruct (dict_get d (percentage_key f)); cbv beta iota;
    try (eexists; split; [reflexivity | discriminate]);
    int_total;
    (eexists; split; [reflexivity |]);
    first [discriminate | intros m Hm; injection Hm as <-; lia].
Qed.

(** The fan's [is_on] and [percentage] raise nothing when the values they
    read are not floats ([int] of an infinite float would raise
    [OverflowError]); a percentage they report is within 0..100; a fan that
    is off reports 0 %; without data both are [None]. *)
Theorem fan_readings (f : k1fan) (data : option (gmap string pyval)) :
  (forall d, data = Some d -> (forall m e, dict_get d (toggle_key f) <> PFloat m e) ->
     exists r, is_on f data = Val r) /\
  (forall d, data = Some d -> (forall m e, dict_get d (toggle_key f) <> PFloat m e) ->
     (forall m e, dict_get d (percentage_key f) <> PFloat m e) ->
     exists r, percentage f data = Val r) /\
  (forall n, percentage f data = Val (Some n) -> 0 <= n <= 100) /\
  (is_on f data = Val (Some false) -> percentage f data = Val (Some 0)) /\
  (data_truthy data = false -> is_on f data = Val None /\ percentage f data = Val None).
Proof.
  split; [| split; [| split; [| split]]].
  - intros d _ _. apply is_on_total.
  - intros d _ _ _. destruct (percentage_total f data) as [r [Hr _]]. eauto.
  - intros n Hn. destruct (percentage_total f data) as [r [Hr Hb]].
    rewrite Hr in Hn. injection Hn as ->. apply Hb. reflexivity.
  - intros H. unfold percentage. rewrite H. reflexivity.
  - intros H.
    assert (Hi : is_on f data = Val None).
    { unfold is_on. destruct data as [d |]; [rewrite H |]; reflexivity. }
    split; [exact Hi |]. unfold percentage. rewrite Hi. reflexivity.
Qed.

(** [async_set_percentage] sends nothing outside 0..100; inside it sends
    [M106 P<index> S<n>] where [n] is within 0..255 and is an integer
    nearest to [255 p / 100], ties to even. *)
Theorem set_percentage_speed (o : send_outcome) (f : k1fan) (p : Z) (s : sup) :
  ((p < 0 \/ 100 < p) -> async_set_percentage o f p s = Val None) /\
  (0 <= p <= 100 ->
   exists n, async_set_percentage o f p s = Val (Some (send_m106_command o f n s)) /\
     snd (send_m106_command o f n s) = m106_command f n /\
     0 <= n <= 255 /\
     2 * Z.abs (255 * p - 100 * n) <= 100 /\
     (2 * Z.abs (255 * p - 100 * n) = 100 -> Z.even n = true)).
Proof.
  split.
  - intros Hp. unfold async_set_percentage.
    destruct Hp as [Hp | Hp].
    + rewrite (proj2 (Z.ltb_lt p 0) Hp). reflexivity.
    + rewrite (proj2 (Z.ltb_lt 100 p) Hp), orb_true_r. reflexivity.
  - intros Hp. destruct (speed_nearest p Hp) as (n & Hn & Hb & Hnear & Hties).
    exists n. unfold async_set_percentage.
    rewrite (proj2 (Z.ltb_ge p 0)), (proj2 (Z.ltb_ge 100 p)) by lia. simpl.
    rewrite Hn. split; [reflexivity |].
    split; [| tauto].
    unfold send_m106_command. destruct (send_message o s) as [[s' []] logs]; reflexivity.
Qed.

(** [async_turn_on] never switches the fan off: it sends a speed of 3 to
    255, and 255 when no percentage is given. *)
Theorem turn_on_speed (o : send_outcome) (f : k1fan) (p : option Z) (s : sup) :
  exists n, async_turn_on o f p s = Val (send_m106_command o f n s) /\
    3 <= n <= 255 /\ (p = None -> n = 255).
Proof.
  destruct p as [q |].
  - destruct (speed_nearest (Z.max 1 (Z.min 100 q))) as (n & Hn & Hb & Hnear & _); [lia |].
    exists n. unfold async_turn_on. rewrite Hn.
    split; [reflexivity | split; [lia | discriminate]].
  - exists 255. split; [reflexivity | split; [lia | reflexivity]].
Qed.

End FanExtra.

(** ** Extra properties: the websocket loops *)
Module LoopsExtra.
Import Supervisor Loops.

Lemma set_data_twice (d1 d2 : gmap string pyval) (s : sup) :
  set_data d2 (set_data d1 s) = set_data d2 s.
Proof. destruct s; reflexivity. Qed.

Lemma receive_frames (json_loads : string -> result pyval) (frames : list string)
  (evs : list recv_event) (s : sup) :
  is_connected s = true -> shutting_down s = false -> ws_open s = true ->
  receive_messages_loop json_loads (map RMsg frames ++ evs) s =
  receive_messages_loop json_loads evs
    (set_data (Codec.run_frames json_loads (latest_raw_data s) frames) s).
Proof.
  revert s. induction frames as [| m fs IH]; intros s Hc Hs Hw.
  - simpl. destruct s; reflexivity.
  - change (map RMsg (m :: fs) ++ evs) with (RMsg m :: (map RMsg fs ++ evs)).
    rewrite CodecFacts.run_frames_cons.
    cbn [receive_messages_loop]. rewrite Hc, Hs, Hw. cbn [andb negb].
    unfold receive_frame.
    destruct (CodecFacts.handle_message_effect json_loads m (latest_raw_data s))
      as (logs & _ & ->).
    rewrite IH by (destruct s; assumption).
    rewrite set_data_twice. destruct s; reflexivity.
Qed.

(** The receive loop applies the frames it receives to the snapshot in
    order; the first [None], timeout, close or error ends it with the
    connection marked lost, one reconnect session scheduled (if not
    shutting down and [hass] is set), the socket left in place, and the
    events after it unread. *)
Theorem receive_loop_spec (json_loads : string -> result pyval)
  (frames : list string) (s : sup) :
  is_connected s = true -> shutting_down s = false -> ws_open s = true ->
  receive_messages_loop json_loads (map RMsg frames) s =
    (set_data (Codec.run_frames json_loads (latest_raw_data s) frames) s, []) /\
  (forall ev rest, (forall m, ev <> RMsg m) ->
   exists s', receive_messages_loop json_loads (map RMsg frames ++ ev :: rest) s = (s', rest) /\
     latest_raw_data s' = Codec.run_frames json_loads (latest_raw_data s) frames /\
     is_connected s' = false /\
     threads s' = threads s ++ (if has_hass s then [RStart] else []) /\
     ws_open s' = true /\ attempts s' = attempts s).
Proof.
  intros Hc Hs Hw. split.
  - rewrite <- (app_nil_r (map RMsg frames)), receive_frames by assumption.
    reflexivity.
  - intros ev rest Hev. rewrite receive_frames by assumption.
    eexists. split.
    + simpl. rewrite Hc, Hs, Hw. simpl.
      destruct ev; [exfalso; exact (Hev message eq_refl) | ..]; reflexivity.
    + destruct s; simpl in *; subst. unfold handle_disconnect, schedule_reconnect. simpl.
      destruct has_hass0; simpl; repeat split; rewrite ?app_nil_r; reflexivity.
Qed.

Lemma receive_loop_spec_witness :
  receive_messages_loop (fun _ => Raise JSONDecodeError) (map RMsg ["a"; "b"])
    (mk_sup true false true (Some TRunning) (Some TRunning) true None [] [] [] ∅)
  = (mk_sup true false true (Some TRunning) (Some TRunning) true None [] [] [] ∅, []).
Proof.
  pose proof (receive_loop_spec (fun _ => Raise JSONDecodeError) ["a"; "b"]
    (mk_sup true false true (Some TRunning) (Some TRunning) true None [] [] [] ∅)
    eq_refl eq_refl eq_refl) as [H _].
  rewrite H. vm_compute. reflexivity.
Defined.

(** The heartbeat loop sends while the sends succeed; the first failed
    send marks the connection lost and schedules one reconnect session (if
    not shutting down and [hass] is set), and the loop then stops. *)
Theorem heartbeat_loop_spec (k : nat) (o : send_outcome) (rest : list send_outcome)
  (s : sup) :
  is_connected s = true -> shutting_down s = false -> ws_open s = true ->
  o <> SendOk ->
  exists s', send_heartbeat_loop (repeat SendOk k ++ o :: rest) s = (s', S k) /\
    is_connected s' = false /\
    threads s' = threads s ++ (if has_hass s then [RStart] else []) /\
    latest_raw_data s' = latest_raw_data s /\ attempts s' = attempts s.
Proof.
  intros Hc Hs Hw Ho.
  assert (Hsend : send_message o s = (handle_disconnect s, Ok tt, [Error])).
  { unfold send_message. rewrite Hc, Hw. destruct o; [contradiction | reflexivity | reflexivity]. }
  assert (Hok : send_message SendOk s = (s, Ok tt, [Debug])).
  { unfold send_message. rewrite Hc, Hw. reflexivity. }
  assert (Hdc : is_connected (handle_disconnect s) = false).
  { unfold handle_disconnect, schedule_reconnect. rewrite Hc.
    destruct (shutting_down _); [reflexivity |]. destruct (has_hass _); reflexivity. }
  assert (Hfail : send_heartbeat_loop (o :: rest) s = (handle_disconnect s, 1%nat)).
  { cbn [send_heartbeat_loop]. rewrite Hc, Hs, Hw. cbn [andb negb]. rewrite Hsend.
    destruct rest as [| o' rest]; [reflexivity |].
    cbn [send_heartbeat_loop]. rewrite Hdc. reflexivity. }
  exists (handle_disconnect s). split.
  - induction k as [| k IH]; [exact Hfail |].
    cbn [repeat app send_heartbeat_loop]. rewrite Hc, Hs, Hw. cbn [andb negb].
    rewrite Hok, IH. reflexivity.
  - destruct s; simpl in *; subst. unfold handle_disconnect, schedule_reconnect. simpl.
    destruct has_hass0; simpl; repeat split; rewrite ?app_nil_r; reflexivity.
Qed.

Lemma heartbeat_loop_spec_witness :
  exists s', send_heartbeat_loop (repeat SendOk 2 ++ SendClosed :: [SendOk])
    (mk_sup true false true (Some TRunning) (Some TRunning) true None [] [] [] ∅)
    = (s', 3%nat) /\ is_connected s' = false /\ threads s' = [RStart] /\
    latest_raw_data s' = ∅ /\ attempts s' = [].
Proof.
  apply (heartbeat_loop_spec 2 SendClosed [SendOk]
    (mk_sup true false true (Some TRunning) (Some TRunning) true None [] [] [] ∅));
    [reflexivity | reflexivity | reflexivity | discriminate].
Defined.

End LoopsExtra.

(** ** Extra properties: __init__.py *)
Module SetupExtra.
Import Supervisor Coordinator Setup.


(** Setting up an entry makes exactly one connection attempt: if it fails
    the setup raises [ConfigEntryNotReady]; if it succeeds the websocket
    is connected with both loops running and no reconnect session. *)
Theorem setup_entry_connect (o : conn_outcome) (hd : hass_data) (entry_id : string) :
  (o <> ConnOk -> async_setup_entry o hd entry_id = Exn ConfigEntryNotReady) /\
  (o = ConnOk -> exists ws, setup_websocket o = Val ws /\
     is_connected ws = true /\ shutting_down ws = false /\
     heartbeat_task ws = Some TRunning /\ receive_task ws = Some TRunning /\
     threads ws = [] /\ attempts ws = [mk_attempt 10 false] /\ has_hass ws = true).
Proof.
  split.
  - intros Ho. unfold async_setup_entry, setup_websocket.
    destruct o; [contradiction | ..]; reflexivity.
  - intros ->. eexists. split; [reflexivity |]. repeat split.
Qed.



End SetupExtra.

(** ** Extra properties: the device name listener *)
Module DeviceNameExtra.
Import DeviceName.

Lemma run_listener_app (xs ys : list (option (gmap string pyval))) (l : listener) :
  run_listener (xs ++ ys) l = run_listener ys (run_listener xs l).
Proof. unfold run_listener. apply fold_left_app. Qed.

Lemma run_listener_set (xs : list (option (gmap string pyval))) (l : listener) :
  hostname_set_flag l = true -> run_listener xs l = l.
Proof.
  intros H. unfold run_listener. revert l H.
  induction xs as [| x xs IH]; intros l H; [reflexivity |].
  simpl. unfold update_device_name_listener at 2. rewrite H. simpl.
  exact (IH l H).
Qed.

Lemma run_listener_skip (xs : list (option (gmap string pyval))) (l : listener) :
  Forall (fun x => names_device x = false) xs -> run_listener xs l = l.
Proof.
  intros H. unfold run_listener. revert l.
  induction H as [| x xs Hx _ IH]; intros l; [reflexivity |].
  simpl. rewrite <- (IH l) at 2. f_equal.
  unfold update_device_name_listener.
  destruct (hostname_set_flag l); [reflexivity |].
  destruct x as [d |]; [| reflexivity].
  unfold names_device in Hx.
  destruct (Fan.data_truthy (Some d)) eqn:Ht; cbn [orb negb andb] in *; [| reflexivity].
  rewrite Hx. reflexivity.
Qed.

(** The listener renames the registered device once, at the first data
    with a non-empty hostname, to that hostname and the data's model
    (["K1 Series"] when the key is missing); later data never renames it
    again, and without such data the device keeps the entry's title. *)
Theorem device_name_listener (title : string)
  (pre post : list (option (gmap string pyval))) (d : gmap string pyval) :
  Forall (fun x => names_device x = false) pre ->
  names_device (Some d) = true ->
  run_listener (pre ++ Some d :: post) (registered title) =
    mk_listener true
      (mk_device (dict_get d "hostname") (default (PStr "K1 Series") (d !! "model")) 1) /\
  run_listener pre (registered title) = registered title.
Proof.
  intros Hpre Hd.
  assert (Hskip : run_listener pre (registered title) = registered title)
    by (apply run_listener_skip; exact Hpre).
  split; [| exact Hskip].
  rewrite run_listener_app, Hskip.
  change (Some d :: post) with ([Some d] ++ post).
  rewrite run_listener_app. rewrite run_listener_set.
  - unfold run_listener. cbn [fold_left]. unfold update_device_name_listener.
    unfold names_device in Hd. apply andb_prop in Hd as [Ht Hh].
    rewrite Ht. cbn [orb negb]. rewrite Hh. reflexivity.
  - unfold run_listener. cbn [fold_left]. unfold update_device_name_listener.
    unfold names_device in Hd. apply andb_prop in Hd as [Ht Hh].
    rewrite Ht. cbn [orb negb]. rewrite Hh. reflexivity.
Qed.

Lemma device_name_listener_witness :
  run_listener ([None; Some ∅; Some {[ "hostname" := PStr "" ]}] ++
                Some {[ "hostname" := PStr "K1-4F2A" ]} ::
                [Some {[ "hostname" := PStr "other" ]}]) (registered "Creality K1 Max") =
    mk_listener true
      (mk_device (dict_get {[ "hostname" := PStr "K1-4F2A" ]} "hostname")
         (default (PStr "K1 Series")
            (({[ "hostname" := PStr "K1-4F2A" ]} : gmap string pyval) !! "model")) 1) /\
  run_listener [None; Some ∅; Some {[ "hostname" := PStr "" ]}]
    (registered "Creality K1 Max") = registered "Creality K1 Max".
Proof.
  apply (device_name_listener "Creality K1 Max"
           [None; Some ∅; Some {[ "hostname" := PStr "" ]}]
           [Some {[ "hostname" := PStr "other" ]}]
           {[ "hostname" := PStr "K1-4F2A" ]}).
  - repeat constructor.
  - reflexivity.
Defined.

End DeviceNameExtra.

(** ** Extra properties: config_flow.py *)
Module ConfigFlowExtra.
Import ConfigFlow.

Lemma base_error_neq (a b : string) :
  a <> b -> ({[ "base" := a ]} : gmap string string) <> {[ "base" := b ]}.
Proof.
  intros Hab Heq. apply Hab.
  apply (f_equal (fun m : gmap string string => m !! "base")) in Heq.
  rewrite !lookup_singleton_eq in Heq. congruence.
Qed.

(** The user step shows an empty form without input; with input it creates
    the entry "Creality K1 Max" exactly when the printer answers with a
    non-empty message, and otherwise reports [cannot_connect]: every
    failure of the probe becomes [CannotConnect], so [unknown] is never
    reported. *)
Theorem step_user_outcomes :
  (forall p, async_step_user None p = ShowForm ∅) /\
  (forall ui p, async_step_user (Some ui) p = CreateEntry "Creality K1 Max" ui <->
                exists r, p = PResponds r /\ r <> "") /\
  (forall ui p, (forall r, p = PResponds r -> r = "") ->
     async_step_user (Some ui) p = ShowForm {[ "base" := "cannot_connect" ]}) /\
  (forall ui p, async_step_user ui p <> ShowForm {[ "base" := "unknown" ]}).
Proof.
  split; [| split; [| split]].
  - reflexivity.
  - intros ui p. unfold async_step_user, validate_connection. split.
    + destruct p as [e | e | e | r]; try discriminate.
      destruct (String.eqb_spec r ""); [discriminate |].
      intros _. exists r. auto.
    + intros (r & -> & Hr). destruct (String.eqb_spec r ""); [contradiction |].
      reflexivity.
  - intros ui p Hp. unfold async_step_user, validate_connection.
    destruct p as [e | e | e | r]; try reflexivity.
    rewrite (Hp r eq_refl). reflexivity.
  - intros [ui |] p; unfold async_step_user, validate_connection.
    + destruct p as [e | e | e | r];
        [| | | destruct (String.eqb r "")]; intros H; try discriminate H;
        injection H as Hm; exact (base_error_neq _ _ ltac:(discriminate) Hm).
    + intros H.
      apply (f_equal (fun f => match f with
                               | ShowForm m => m !! "base"
                               | CreateEntry _ _ => None end)) in H.
      cbv beta iota in H.
      rewrite lookup_empty, lookup_singleton_eq in H. discriminate.
Qed.

End ConfigFlowExtra.

(** ** The entities' reads and commands *)
Module EntityExtra.
Import Supervisor Coordinator Entities EntityPaths.

Lemma data_and_connected_eq (h : holder) :
  data_and_connected h =
  match h with
  | HEntryDict _ => Exn (Exc (AttributeError "data"))
  | HCoordinator c =>
      if bool_decide (latest_data c = ∅) then Val None
      else Exn (Exc (AttributeError "is_connected"))
  end.
Proof.
  destruct h as [c | c]; [| reflexivity].
  unfold data_and_connected; cbn [holder_getattr_data holder_getattr_websocket].
  destruct (bool_decide _); reflexivity.
Qed.

Lemma data_and_connected_no_data (h : holder) (d : gmap string pyval) :
  data_and_connected h <> Val (Some d).
Proof.
  rewrite data_and_connected_eq.
  destruct h as [c | c]; [destruct (bool_decide _) |]; discriminate.
Qed.

(** The sensors, the light switch and the climate entities, wired as their
    platform setups wire them, raise [AttributeError] on [data] when read;
    whatever the holder, no sensor and no switch ever reports a value. *)
Theorem entity_reads_never_report :
  (forall fos x c, sensor_native_value fos x (wired_holder PSensor c)
                   = Exn (Exc (AttributeError "data"))) /\
  (forall c, switch_is_on (wired_holder PSwitch c) = Exn (Exc (AttributeError "data"))) /\
  (forall fos key c, climate_temperature fos key (wired_holder PClimate c)
                     = Exn (Exc (AttributeError "data"))) /\
  (forall fos x h v, sensor_native_value fos x h <> Val (Some v)) /\
  (forall h b, switch_is_on h <> Val (Some b)).
Proof.
  split; [| split; [| split; [| split]]].
  - intros fos x c; destruct x; reflexivity.
  - reflexivity.
  - reflexivity.
  - intros fos x h v.
    destruct x; unfold sensor_native_value, float_sensor_value, int_sensor_value,
      print_state_value; rewrite data_and_connected_eq;
      destruct h as [c | c]; try destruct (bool_decide _); discriminate.
  - intros h b. unfold switch_is_on. rewrite data_and_connected_eq.
    destruct h as [c | c]; try destruct (bool_decide _); discriminate.
Qed.

(** No command of the light switch, a button or a heater reaches the
    printer: the switch and the buttons, given the entry dict, raise
    [AttributeError] on [websocket] before [send_message]; a heater with no
    temperature returns at once, one with an int, a bool or a finite float
    raises [AttributeError] on [send_gcode_command] (no coordinator defines
    it), and one with a string raises [TypeError] in [round]. *)
Theorem entity_commands_never_sent :
  (forall o on c, switch_turn o on (wired_holder PSwitch c)
                  = Exn (Exc (AttributeError "websocket"))) /\
  (forall o params c, button_press o params (wired_holder PButton c)
                      = Exn (Exc (AttributeError "websocket"))) /\
  (forall heater h, climate_set_temperature heater PNone h = Val tt) /\
  (forall heater n h, climate_set_temperature heater (PInt n) h
                      = Exn (Exc (AttributeError "send_gcode_command"))) /\
  (forall heater b h, climate_set_temperature heater (PBool b) h
                      = Exn (Exc (AttributeError "send_gcode_command"))) /\
  (forall heater m e h, climate_set_temperature heater (PFloat m e) h
                        = Exn (Exc (AttributeError "send_gcode_command"))) /\
  (forall heater s h, climate_set_temperature heater (PStr s) h = Exn (Exc TypeError)).
Proof.
  repeat split.
Qed.

End EntityExtra.
